(** * WebDriver client utilities ([packages/webdriver/src/utils.js])

    A shallow embedding of the session bootstrap code of the WebDriver
    package: capability negotiation and session start
    ([startWebDriverSession]), response classification
    ([isSuccessfulResponse]), the command prototype builder
    ([getPrototype]), the error translators ([getErrorFromResponseBody],
    [CustomRequestError], [getSessionError]) and the direct-connect
    rewrite ([setupDirectConnect]).

    JavaScript values are modelled by [JsVal]; code that can raise is
    written in the error monad [Res]; code that mutates an object passed
    by the caller threads the object explicitly. *)

From Stdlib Require Import ZArith List String Ascii Bool Lia DecimalString.
Import ListNotations.
Open Scope string_scope.
Set Warnings "-register-all".

(* ===================================================================== *)
(** ** Ordered records *)
(* ===================================================================== *)

(** A JavaScript object used as a record or a table: its own properties
    in insertion order, which is the order [Object.entries] enumerates
    keys that are not array indices. *)
Section Assoc.
Context {A : Type}.

Fixpoint find (k : string) (o : list (string * A)) : option A :=
  match o with
  | [] => None
  | (k', v) :: o' => if k' =? k then Some v else find k o'
  end.

(** Assignment [o[k] = v]: an existing key keeps its place, a new key
    goes last. *)
Fixpoint put (k : string) (v : A) (o : list (string * A)) : list (string * A) :=
  match o with
  | [] => [(k, v)]
  | (k', v') :: o' =>
      if k' =? k then (k', v) :: o' else (k', v') :: put k v o'
  end.
End Assoc.

(* ===================================================================== *)
(** ** JavaScript values *)
(* ===================================================================== *)

(** The values a decoded JSON body, a capability object or an options
    object can hold.  Numbers are the integral ones (status codes, ports)
    that a double holds exactly and prints digit by digit, up to 2^53 in
    size: the code only tests a number for being zero, 7, 200 or 404,
    where a fraction behaves as any other integer does.  An object is the
    ordered record of its own properties, none of them a function. *)
Inductive JsVal : Type :=
| JUndefined
| JNull
| JBool (b : bool)
| JNum (n : Z)
| JStr (s : string)
| JArr (items : list JsVal)
| JObj (fields : list (string * JsVal)).

Definition Obj := list (string * JsVal).

(** Induction over values, through the elements of arrays and the
    members of objects. *)
Section Induction.

Variable P : JsVal -> Prop.
Hypothesis P_undefined : P JUndefined.
Hypothesis P_null : P JNull.
Hypothesis P_bool : forall b, P (JBool b).
Hypothesis P_num : forall n, P (JNum n).
Hypothesis P_str : forall s, P (JStr s).
Hypothesis P_arr : forall l, Forall P l -> P (JArr l).
Hypothesis P_obj : forall o, Forall (fun kv => P (snd kv)) o -> P (JObj o).

Fixpoint JsVal_induction (v : JsVal) : P v :=
  match v with
  | JUndefined => P_undefined
  | JNull => P_null
  | JBool b => P_bool b
  | JNum n => P_num n
  | JStr s => P_str s
  | JArr l =>
      P_arr l
        ((fix elements (l : list JsVal) : Forall P l :=
            match l with
            | [] => Forall_nil P
            | x :: l' => Forall_cons x (JsVal_induction x) (elements l')
            end) l)
  | JObj o =>
      P_obj o
        ((fix members (o : list (string * JsVal))
            : Forall (fun kv => P (snd kv)) o :=
            match o with
            | [] => Forall_nil _
            | kv :: o' => Forall_cons kv (JsVal_induction (snd kv)) (members o')
            end) o)
  end.

End Induction.

(** What a [throw] carries: the runtime's [TypeError], or an [Error]
    built by the code with a message. *)
Inductive Exn : Type :=
| TypeError
| Error (message : string).

Inductive Res (A : Type) : Type :=
| Ret (a : A)
| Throw (e : Exn).
Arguments Ret {A} a.
Arguments Throw {A} e.

Definition bind {A B} (m : Res A) (k : A -> Res B) : Res B :=
  match m with
  | Ret a => k a
  | Throw e => Throw e
  end.

Notation "x <- m ;; k" := (bind m (fun x => k))
  (at level 61, m at next level, right associativity).

(** A loop whose body may raise: the first raise ends it. *)
Fixpoint foldM {A B} (f : A -> B -> Res A) (l : list B) (a : A) : Res A :=
  match l with
  | [] => Ret a
  | x :: l' => a' <- f a x ;; foldM f l' a'
  end.

(** [ToBoolean]. *)
Definition truthy (v : JsVal) : bool :=
  match v with
  | JUndefined | JNull => false
  | JBool b => b
  | JNum n => negb (n =? 0)%Z
  | JStr s => negb (s =? "")
  | JArr _ | JObj _ => true
  end.

(** Own property of an object record; [undefined] when the key is not
    there. *)
Definition lookup (k : string) (o : Obj) : JsVal :=
  match find k o with
  | Some v => v
  | None => JUndefined
  end.

(** [undefined] and [null], the two values no property can be read
    from. *)
Definition nullish (v : JsVal) : bool :=
  match v with
  | JUndefined | JNull => true
  | _ => false
  end.

(** Property read [v.k] for the keys this file reads ([value], [status],
    [message], ...), none of which names a built-in member of strings,
    arrays, numbers or booleans: reading from [undefined] or [null]
    raises, a primitive or an array has no such member. *)
Definition get (k : string) (v : JsVal) : Res JsVal :=
  match v with
  | JUndefined | JNull => Throw TypeError
  | JObj o => Ret (lookup k o)
  | _ => Ret JUndefined
  end.

(** [v === n] and [v === s] against a number or string literal. *)
Definition is_num (v : JsVal) (n : Z) : bool :=
  match v with JNum m => (m =? n)%Z | _ => false end.

Definition is_str (v : JsVal) (s : string) : bool :=
  match v with JStr t => t =? s | _ => false end.

Definition is_undefined (v : JsVal) : bool :=
  match v with JUndefined => true | _ => false end.

(** *** String methods *)

Definition lower_ascii (c : ascii) : ascii :=
  let n := nat_of_ascii c in
  if (65 <=? n)%nat && (n <=? 90)%nat then ascii_of_nat (n + 32) else c.

(** [String.prototype.toLowerCase] on the ASCII letters.  The literals
    the code compares the result with are ASCII and hold no letter that a
    non-ASCII character lowers to, so the comparisons agree. *)
Fixpoint lower (s : string) : string :=
  match s with
  | EmptyString => EmptyString
  | String c s' => String (lower_ascii c) (lower s')
  end.

(** [s.startsWith(p)]. *)
Definition startsWith (s p : string) : bool := String.prefix p s.

(** [s.includes(m)] on strings. *)
Fixpoint str_includes (s m : string) : bool :=
  String.prefix m s ||
  match s with
  | EmptyString => false
  | String _ s' => str_includes s' m
  end.

(** Method call [v.toLowerCase()]: only strings have the method; the
    call on any other value that a property can be read from raises. *)
Definition toLowerCase (v : JsVal) : Res string :=
  match v with
  | JStr s => Ret (lower s)
  | _ => Throw TypeError
  end.

(** Method call [v.includes(m)] with a string argument: substring test on
    a string, membership on an array, no such method elsewhere. *)
Definition includes (v : JsVal) (m : string) : Res bool :=
  match v with
  | JStr s => Ret (str_includes s m)
  | JArr l => Ret (existsb (fun x => is_str x m) l)
  | _ => Throw TypeError
  end.

(** A number prints as its decimal digits. *)
Definition num_to_string (n : Z) : string :=
  NilZero.string_of_int (Z.to_int n).

(** [Array.prototype.join]: the elements are converted from left to
    right, the first conversion that raises ends the call. *)
Definition join_with (f : JsVal -> Res string) : list JsVal -> Res string :=
  fix go (l : list JsVal) : Res string :=
    match l with
    | [] => Ret ""
    | [x] => f x
    | x :: l' => s <- f x ;; r <- go l' ;; Ret (s ++ "," ++ r)
    end.

(** [ToString], as template literals, [+] with a string and the [Error]
    constructor apply it.  An object is converted through its [toString]
    member: the inherited one gives "[object Object]"; an own member
    [toString] is not a function, the conversion then turns to [valueOf],
    which gives no primitive either, and raises.  An array is joined, its
    [undefined] and [null] elements as empty strings. *)
Fixpoint toStr (v : JsVal) : Res string :=
  match v with
  | JUndefined => Ret "undefined"
  | JNull => Ret "null"
  | JBool true => Ret "true"
  | JBool false => Ret "false"
  | JNum n => Ret (num_to_string n)
  | JStr s => Ret s
  | JArr l =>
      join_with (fun x => match x with
                          | JUndefined | JNull => Ret ""
                          | _ => toStr x
                          end) l
  | JObj o =>
      match find "toString" o with
      | Some _ => Throw TypeError
      | None => Ret "[object Object]"
      end
  end.

(** The values [ToString] converts. *)
Definition printable (v : JsVal) : bool :=
  match toStr v with
  | Ret _ => true
  | Throw _ => false
  end.

(* ===================================================================== *)
(** ** Response classification *)
(* ===================================================================== *)

Definition appium_not_found : string :=
  "An element could not be located on the page using the given search parameters.".

(** The test of the lazy-loading branch:
    [body.status === 7 && body.value && body.value.message && (...)]. *)
Definition elementNotFound (status value : JsVal) : Res bool :=
  if is_num status 7 && truthy value then
    message <- get "message" value ;;
    if truthy message then
      l1 <- toLowerCase message ;;
      if startsWith l1 "no such element" then Ret true
      else if is_str message appium_not_found then Ret true
      else
        l2 <- toLowerCase message ;;
        Ret (startsWith l2 "unable to find element")
    else Ret false
  else Ret false.

(** [body.value && (body.value.error || body.value.stackTrace ||
    body.value.stacktrace)]: the value the expression yields. *)
Definition hasErrorResponse (value : JsVal) : Res JsVal :=
  if truthy value then
    error <- get "error" value ;;
    if truthy error then Ret error
    else
      stackTrace <- get "stackTrace" value ;;
      if truthy stackTrace then Ret stackTrace
      else get "stacktrace" value
  else Ret value.

Definition isSuccessfulResponse (statusCode body : JsVal) : Res bool :=
  if negb (truthy body) then Ret false
  else
    value <- get "value" body ;;
    if is_undefined value then Ret false
    else
      status <- get "status" body ;;
      lazy <- elementNotFound status value ;;
      if lazy then Ret true
      else if truthy status && negb (is_num status 0) then
        (* `request failed due to status ${body.status}` *)
        line <- toStr status ;;
        Ret false
      else
        err <- hasErrorResponse value ;;
        if is_num statusCode 200 && negb (truthy err) then Ret true
        else
          notFound <- (if is_num statusCode 404 && truthy value
                       then e <- get "error" value ;; Ret (is_str e "no such element")
                       else Ret false) ;;
          if notFound then Ret true
          else if truthy err then Ret false
          else Ret true.

(** *** The decision table of the classifier, as the specification words it *)

Inductive ResponseOutcome : Type :=
| Success
| SuccessElementMissing
| Failure (reason : string).

(** Both successes count as a successful request. *)
Definition succeeded (o : ResponseOutcome) : bool :=
  match o with
  | Success | SuccessElementMissing => true
  | Failure _ => false
  end.

(** [v.k] as a total function: [undefined] where [v] has no member [k],
    also when [v] itself is absent. *)
Definition member (k : string) (v : JsVal) : JsVal :=
  match v with
  | JObj o => lookup k o
  | _ => JUndefined
  end.

(** A field is present when it holds something: the specification's
    "present" stands for the code's truthiness tests. *)
Definition present (v : JsVal) : bool := truthy v.

Definition body_missing (body : JsVal) : bool := nullish body.

Definition no_value_field (body : JsVal) : bool :=
  is_undefined (member "value" body).

(** The three phrasings of "element not found". *)
Definition element_missing_message (message : JsVal) : bool :=
  match message with
  | JStr s =>
      String.prefix "no such element" (lower s)
      || (s =? appium_not_found)
      || String.prefix "unable to find element" (lower s)
  | _ => false
  end.

Definition error_indicator (body : JsVal) : bool :=
  let value := member "value" body in
  present (member "error" value)
  || present (member "stackTrace" value)
  || present (member "stacktrace" value).

Definition classify (statusCode body : JsVal) : ResponseOutcome :=
  let status := member "status" body in
  let value := member "value" body in
  (* 1 *)
  if body_missing body || no_value_field body then Failure "missing body"
  (* 2 *)
  else if is_num status 7 && element_missing_message (member "message" value)
  then SuccessElementMissing
  (* 3 *)
  else if present status && negb (is_num status 0)
  then Failure "non-zero legacy status"
  (* 4 *)
  else if is_num statusCode 200 && negb (error_indicator body) then Success
  (* 5 *)
  else if is_num statusCode 404 && is_str (member "error" value) "no such element"
  then SuccessElementMissing
  (* 6 *)
  else if error_indicator body then Failure "response error"
  (* 7 *)
  else Success.

(** The bodies on which the lazy-loading test calls [toLowerCase] on a
    message that is not a string. *)
Definition message_not_string (body : JsVal) : bool :=
  let message := member "message" (member "value" body) in
  is_num (member "status" body) 7
  && truthy message
  && match message with JStr _ => false | _ => true end.

(* ===================================================================== *)
(** ** Error translation *)
(* ===================================================================== *)

Definition nl : string := String (ascii_of_nat 10) EmptyString.
Definition dq : string := String (ascii_of_nat 34) EmptyString.

Definition BROWSER_DRIVER_ERRORS : list string :=
  [ "unknown command: wd/hub/session";
    "HTTP method not allowed";
    "'POST /wd/hub/session' was not found.";
    "Command not found" ].

(** [l.some(f)] for a test that may raise: stops at the first hit. *)
Fixpoint some (f : string -> Res bool) (l : list string) : Res bool :=
  match l with
  | [] => Ret false
  | m :: l' => b <- f m ;; if b then Ret true else some f l'
  end.

Definition w3cCapMessage : string :=
  nl ++ "Make sure to add vendor prefix like " ++ dq ++ "goog:" ++ dq ++ ", "
     ++ dq ++ "appium:" ++ dq ++ ", " ++ dq ++ "moz:" ++ dq
     ++ ", etc to non W3C capabilities."
  ++ nl ++ "See more https://www.w3.org/TR/webdriver/#capabilities".

(** The address the connection parameters point to:
    [`${protocol}://${hostname}:${port}${path}`]. *)
Definition target (params : Obj) : Res string :=
  protocol <- toStr (lookup "protocol" params) ;;
  hostname <- toStr (lookup "hostname" params) ;;
  port <- toStr (lookup "port" params) ;;
  path <- toStr (lookup "path" params) ;;
  Ret (protocol ++ "://" ++ hostname ++ ":" ++ port ++ path).

Definition msg_refused (params : Obj) : Res string :=
  address <- target params ;;
  Ret ("Unable to connect to " ++ dq ++ address ++ dq
       ++ ", make sure browser driver is running on that address."
       ++ nl ++ "If you use services like chromedriver see initialiseServices logs above or in wdio.log file as the service might had problems to start the driver.").

Definition msg_unhandled : string :=
  "The browser driver couldn't start the session. Make sure you have set the "
  ++ dq ++ "path" ++ dq ++ " correctly!".

Definition msg_logs : string := "See wdio.* logs for more information.".

Definition msg_standalone : string :=
  "It seems you are running a Selenium Standalone server and point to a wrong path. Please set `path: '/wd/hub'` in your wdio.conf.js!".

Definition msg_driver_path : string :=
  "Make sure to set `path: '/'` in your wdio.conf.js!".

Definition msg_edge : string :=
  "Run edge driver on 127.0.0.1 instead of localhost, ex: --host=127.0.0.1, or set `hostname: 'localhost'` in your wdio.conf.js".

Definition msg_empty_body : string :=
  "Make sure to connect to valid hostname:port or the port is not in use."
  ++ nl ++ "If you use a grid server " ++ w3cCapMessage.

(** An [Error] object as the transport rejects with: an object whose
    [message], when it has one, is a string. *)
Definition isErrorValue (err : JsVal) : bool :=
  match err with
  | JObj o =>
      match lookup "message" o with
      | JStr _ | JUndefined => true
      | _ => false
      end
  | _ => false
  end.

(** The value returned is a string in every branch but the last, which
    hands back [err.message] as it is. *)
Definition getSessionError (err : JsVal) (params : Obj) : Res JsVal :=
  code <- get "code" err ;;
  if is_str code "ECONNREFUSED" then
    advice <- msg_refused params ;;
    Ret (JStr advice)
  else
    message <- get "message" err ;;
    if is_str message "unhandled request" then Ret (JStr msg_unhandled)
    else if negb (truthy message) then Ret (JStr msg_logs)
    else
      whoops <- includes message "Whoops! The URL specified routes to this help page." ;;
      if whoops then Ret (JStr msg_standalone)
      else
        driver <- some (fun m => includes message m) BROWSER_DRIVER_ERRORS ;;
        if driver then Ret (JStr msg_driver_path)
        else
          badHost <- includes message "Bad Request - Invalid Hostname" ;;
          http400 <- (if badHost then includes message "HTTP Error 400" else Ret false) ;;
          if http400 then Ret (JStr msg_edge)
          else
            illegal <- includes message "Illegal key values seen in w3c capabilities" ;;
            if illegal then
              (* err.message + w3cCapMessage *)
              printed <- toStr message ;;
              Ret (JStr (printed ++ w3cCapMessage))
            else if is_str message "Response has empty body" then Ret (JStr msg_empty_body)
            else Ret message.

(** *** The translation rules, as the specification orders them *)

(** The message of a transport error, empty when it has none. *)
Definition text (err : JsVal) : string :=
  match member "message" err with
  | JStr s => s
  | _ => ""
  end.

(** A rule: the test on the error, and the guidance it gives; building
    the guidance from the connection parameters can raise. *)
Definition Rule : Type := (JsVal -> bool) * (JsVal -> Obj -> Res string).

Definition diagnostic_rules : list Rule :=
  [ (* connection refused *)
    (fun err => is_str (member "code" err) "ECONNREFUSED",
     fun _ params => msg_refused params);
    (* unhandled request *)
    (fun err => text err =? "unhandled request",
     fun _ _ => Ret msg_unhandled);
    (* no message *)
    (fun err => text err =? "",
     fun _ _ => Ret msg_logs);
    (* wrong path, standalone server *)
    (fun err => str_includes (text err)
                  "Whoops! The URL specified routes to this help page.",
     fun _ _ => Ret msg_standalone);
    (* wrong path, local drivers *)
    (fun err => existsb (str_includes (text err)) BROWSER_DRIVER_ERRORS,
     fun _ _ => Ret msg_driver_path);
    (* driver bound to localhost *)
    (fun err => str_includes (text err) "Bad Request - Invalid Hostname"
                && str_includes (text err) "HTTP Error 400",
     fun _ _ => Ret msg_edge);
    (* illegal w3c capabilities *)
    (fun err => str_includes (text err)
                  "Illegal key values seen in w3c capabilities",
     fun err _ => Ret (text err ++ w3cCapMessage));
    (* empty body *)
    (fun err => text err =? "Response has empty body",
     fun _ _ => Ret msg_empty_body) ].

(** The first rule that applies decides; with none, the message goes
    through as it is. *)
Fixpoint first_match (rules : list Rule) (err : JsVal) (params : Obj)
  : Res string :=
  match rules with
  | [] => Ret (text err)
  | (applies, advice) :: rules' =>
      if applies err then advice err params else first_match rules' err params
  end.

Definition toDiagnostic (err : JsVal) (params : Obj) : Res string :=
  first_match diagnostic_rules err params.

(** An [Error] object: its message, and its [name] when the constructor
    sets one ([None] leaves the inherited name). *)
Record ErrorObject : Type := mkError {
  err_message : string;
  err_name : option JsVal
}.

Definition CustomRequestError (body : JsVal) : Res ErrorObject :=
  value <- get "value" body ;;
  let errorObj := if truthy value then value else body in
  m <- get "message" errorObj ;;
  text <- (if truthy m then Ret m
           else c <- get "class" errorObj ;;
                if truthy c then Ret c else Ret (JStr "unknown error")) ;;
  (* super(...): the Error constructor converts its argument *)
  message <- toStr text ;;
  error <- get "error" errorObj ;;
  if truthy error then Ret (mkError message (Some error))
  else
    m' <- get "message" errorObj ;;
    stale <- (if truthy m' then includes m' "stale element reference" else Ret false) ;;
    if stale then Ret (mkError message (Some (JStr "stale element reference")))
    else Ret (mkError message None).

Definition is_object (v : JsVal) : bool :=
  match v with JNull | JArr _ | JObj _ => true | _ => false end.

Definition getErrorFromResponseBody (body : JsVal) : Res ErrorObject :=
  if negb (truthy body) then Ret (mkError "Response has empty body" None)
  else
    match body with
    | JStr s =>
        if negb (length s =? 0)%nat then Ret (mkError s None)
        else Ret (mkError "unknown error" None)
    | _ =>
        if negb (is_object body) then Ret (mkError "unknown error" None)
        else
          value <- get "value" body ;;
          lacking <- (if truthy value then Ret false
                      else error <- get "error" body ;; Ret (negb (truthy error))) ;;
          if lacking then Ret (mkError "unknown error" None)
          else CustomRequestError body
    end.

(** *** The error of a response body, as the specification words it *)

(** The text of a value that converts to a string. *)
Definition shown (v : JsVal) : string :=
  match toStr v with
  | Ret s => s
  | Throw _ => ""
  end.

(** The message is [errorObj.message], else [errorObj.class], else
    "unknown error"; the kind tag is [errorObj.error] when present, else
    "stale element reference" when [errorObj.message] holds that phrase. *)
Definition toError (body : JsVal) : ErrorObject :=
  if negb (present body) then mkError "Response has empty body" None
  else
    match body with
    | JStr s => mkError s None
    | _ =>
        if negb (is_object body)
           || (negb (present (member "value" body))
               && negb (present (member "error" body)))
        then mkError "unknown error" None
        else
          let errorObj := if present (member "value" body)
                          then member "value" body else body in
          let message :=
            if present (member "message" errorObj)
            then shown (member "message" errorObj)
            else if present (member "class" errorObj)
                 then shown (member "class" errorObj)
                 else "unknown error" in
          let kind :=
            if present (member "error" errorObj)
            then Some (member "error" errorObj)
            else if str_includes (text errorObj) "stale element reference"
                 then Some (JStr "stale element reference")
                 else None in
          mkError message kind
    end.

(** A member that is a string when it holds something. *)
Definition stringOrAbsent (v : JsVal) : bool :=
  match v with
  | JStr _ => true
  | _ => negb (truthy v)
  end.

(** The error object that [CustomRequestError] reads. *)
Definition errorObjOf (body : JsVal) : JsVal :=
  if present (member "value" body) then member "value" body else body.

(** What [CustomRequestError] hands to the [Error] constructor:
    [errorObj.message || errorObj.class || 'unknown error']. *)
Definition errorText (errorObj : JsVal) : JsVal :=
  if truthy (member "message" errorObj) then member "message" errorObj
  else if truthy (member "class" errorObj) then member "class" errorObj
  else JStr "unknown error".

(* ===================================================================== *)
(** ** Session start *)
(* ===================================================================== *)

(** The pair [[w3cCaps, jsonwpCaps]] built from [params.capabilities]. *)
Definition capabilityForms (capabilities : JsVal) : Res (JsVal * JsVal) :=
  alwaysMatch <- (if truthy capabilities then get "alwaysMatch" capabilities
                  else Ret capabilities) ;;
  if truthy alwaysMatch then
    jsonwpCaps <- get "alwaysMatch" capabilities ;;
    Ret (capabilities, jsonwpCaps)
  else
    Ret (JObj [("alwaysMatch", capabilities); ("firstMatch", JArr [JObj []])],
         capabilities).

(** [response.value.sessionId || response.sessionId]. *)
Definition sessionIdOf (response : JsVal) : Res JsVal :=
  value <- get "value" response ;;
  sessionId <- get "sessionId" value ;;
  if truthy sessionId then Ret sessionId else get "sessionId" response.

(** [response.value.capabilities || response.value]. *)
Definition capabilitiesOf (response : JsVal) : Res JsVal :=
  value <- get "value" response ;;
  capabilities <- get "capabilities" value ;;
  if truthy capabilities then Ret capabilities else Ret value.

(** The payload of the session request. *)
Definition sessionRequestBody (w3cCaps jsonwpCaps : JsVal) : JsVal :=
  JObj [("capabilities", w3cCaps); ("desiredCapabilities", jsonwpCaps)].

Section Session.

(** [new WebDriverRequest(method, endpoint, body).makeRequest(params)],
    awaited: the transport either rejects with the value it throws or
    resolves with the decoded response.  It reads [params] and does not
    write to it. *)
Variable makeRequest : string -> string -> JsVal -> Obj -> JsVal + JsVal.

(** The function returns the session id or raises; the second
    component is the [params] object as the call leaves it. *)
Definition startWebDriverSession (params : Obj) : Res JsVal * Obj :=
  match capabilityForms (lookup "capabilities" params) with
  | Throw e => (Throw e, params)
  | Ret (w3cCaps, jsonwpCaps) =>
      match makeRequest "POST" "/session"
                        (sessionRequestBody w3cCaps jsonwpCaps) params with
      | inl err =>
          match getSessionError err params with
          | Throw e => (Throw e, params)
          | Ret message =>
              (* 'Failed to create session.' + newline + message *)
              match toStr message with
              | Throw e => (Throw e, params)
              | Ret printed =>
                  (Throw (Error ("Failed to create session." ++ nl ++ printed)),
                   params)
              end
          end
      | inr response =>
          match sessionIdOf response with
          | Throw e => (Throw e, params)
          | Ret sessionId =>
              let params1 :=
                put "requestedCapabilities"
                    (JObj [("w3cCaps", w3cCaps); ("jsonwpCaps", jsonwpCaps)])
                    params in
              match capabilitiesOf response with
              | Throw e => (Throw e, params1)
              | Ret capabilities =>
                  (Ret sessionId, put "capabilities" capabilities params1)
              end
          end
      end
  end.

End Session.

(* ===================================================================== *)
(** ** Direct connect *)
(* ===================================================================== *)

(** The capabilities carry the four redirect fields: protocol, host and
    port hold something, the path holds something or is the empty
    string. *)
Definition carriesDirectConnect (capabilities : JsVal) : bool :=
  present (member "directConnectProtocol" capabilities)
  && present (member "directConnectHost" capabilities)
  && present (member "directConnectPort" capabilities)
  && (present (member "directConnectPath" capabilities)
      || is_str (member "directConnectPath" capabilities) "").

(** The guard of the rewrite. *)
Definition directConnectReady (protocol host port path : JsVal) : bool :=
  truthy protocol && truthy host && truthy port
  && (truthy path || is_str path "").

(** ['Found direct connect information in new session response. ' +
    `Will connect to server at ${protocol}://` +
    `${host}:${port}/${path}`]. *)
Definition directConnectLine (protocol host port path : JsVal) : Res string :=
  p <- toStr protocol ;;
  h <- toStr host ;;
  n <- toStr port ;;
  t <- toStr path ;;
  Ret ("Found direct connect information in new session response. "
       ++ "Will connect to server at " ++ p ++ "://" ++ h ++ ":" ++ n
       ++ "/" ++ t).

Definition setupDirectConnect (params : Obj) : Res unit * Obj :=
  let capabilities := lookup "capabilities" params in
  match
    (directConnectProtocol <- get "directConnectProtocol" capabilities ;;
     directConnectHost <- get "directConnectHost" capabilities ;;
     directConnectPort <- get "directConnectPort" capabilities ;;
     directConnectPath <- get "directConnectPath" capabilities ;;
     Ret (directConnectProtocol, directConnectHost,
          directConnectPort, directConnectPath))
  with
  | Throw e => (Throw e, params)
  | Ret (directConnectProtocol, directConnectHost,
         directConnectPort, directConnectPath) =>
      if directConnectReady directConnectProtocol directConnectHost
                            directConnectPort directConnectPath
      then
        (* the line handed to log.info is built before anything is
           written *)
        match directConnectLine directConnectProtocol directConnectHost
                                directConnectPort directConnectPath with
        | Throw e => (Throw e, params)
        | Ret line =>
            (Ret tt,
             put "path" directConnectPath
               (put "port" directConnectPort
                  (put "hostname" directConnectHost
                     (put "protocol" directConnectProtocol params))))
        end
      else (Ret tt, params)
  end.

(* ===================================================================== *)
(** ** The command prototype *)
(* ===================================================================== *)

(** The tables imported from the protocols package.  They are objects of
    the module, shared by every call. *)
Inductive ProtocolName : Type :=
| WebDriverProtocol
| MJsonWProtocol
| JsonWProtocol
| AppiumProtocol
| ChromiumProtocol
| SauceLabsProtocol
| SeleniumProtocol.

Definition ProtocolName_eqb (a b : ProtocolName) : bool :=
  match a, b with
  | WebDriverProtocol, WebDriverProtocol
  | MJsonWProtocol, MJsonWProtocol
  | JsonWProtocol, JsonWProtocol
  | AppiumProtocol, AppiumProtocol
  | ChromiumProtocol, ChromiumProtocol
  | SauceLabsProtocol, SauceLabsProtocol
  | SeleniumProtocol, SeleniumProtocol => true
  | _, _ => false
  end.

Record Flags : Type := mkFlags {
  isW3C : bool;
  isChrome : bool;
  isMobile : bool;
  isSauce : bool;
  isSeleniumStandalone : bool
}.

Section Prototype.

(** A command description ([commandData]) and the name it declares:
    [commandData.command] converted to a property key, which raises
    where the member does not convert to a string. *)
Variable Descriptor : Type.
Variable commandName : Descriptor -> Res string.

(** What lodash's [merge] does below the method level: the description
    it leaves at a method that held [objValue] (nothing when the method
    is new) once the source's description is merged in. *)
Variable mergeDescriptor : option Descriptor -> Descriptor -> Descriptor.

Definition Methods := list (string * Descriptor).
Definition Protocol := list (string * Methods).

(** The module's tables as they stand: the store [merge] can write
    to.  No table shares a nested object with another. *)
Definition Store := ProtocolName -> Protocol.

Definition write (n : ProtocolName) (p : Protocol) (s : Store) : Store :=
  fun m => if ProtocolName_eqb m n then p else s m.

(** lodash's recursive merge on the two levels of a table: a key of the
    source that the destination has is merged into the object found
    there, a new key gets a fresh object that the source's value is
    merged into. *)
Definition mergeMethods (object source : Methods) : Methods :=
  fold_left
    (fun acc '(method, commandData) =>
       put method (mergeDescriptor (find method acc) commandData) acc)
    source object.

Definition mergeProtocol (object source : Protocol) : Protocol :=
  fold_left
    (fun acc '(endpoint, methods) =>
       let objValue := match find endpoint acc with
                       | Some o => o
                       | None => []
                       end in
       put endpoint (mergeMethods objValue methods) acc)
    source object.

(** The first argument of [merge]: a new object literal, or one of the
    imported tables itself. *)
Inductive Dest : Type :=
| Fresh (p : Protocol)
| Imported (n : ProtocolName).

(** [merge(object, ...sources)] of lodash: the sources are merged into
    [object] from left to right; [object] itself is changed and returned,
    the sources are only read. *)
Definition merge (object : Dest) (sources : list Protocol) (s : Store)
  : Protocol * Store :=
  match object with
  | Fresh p => (fold_left mergeProtocol sources p, s)
  | Imported n =>
      let r := fold_left mergeProtocol sources (s n) in
      (r, write n r s)
  end.

(** Modelled from the spec: [command(method, endpoint, commandData,
    isSeleniumStandalone)] of [./command], which is not part of this
    file; the binding keeps the four arguments. *)
Record Binding : Type := command {
  bound_method : string;
  bound_endpoint : string;
  bound_commandData : Descriptor;
  bound_grid : bool
}.

(** The object the loops fill: its own properties in the order they
    were first assigned (an enumeration would list names that are array
    indices first), and the object it inherits from once one was set
    ([None] stands for the built-in object prototype). *)
Record Prototype : Type := mkPrototype {
  own : list (string * Binding);
  inherits : option Binding
}.

(** One step of the loops: [prototype[commandData.command] = ...].  The
    name [__proto__] is the inherited accessor: assigning to it replaces
    the object the prototype inherits from and adds no property. *)
Definition registerOne (prototype : Prototype) (b : Binding) : Res Prototype :=
  name <- commandName (bound_commandData b) ;;
  if name =? "__proto__"
  then Ret (mkPrototype (own prototype) (Some b))
  else Ret (mkPrototype (put name b (own prototype)) (inherits prototype)).

(** The two nested loops over [Object.entries]. *)
Definition register (grid : bool) (ProtocolCommands : Protocol)
  : Res Prototype :=
  foldM
    (fun prototype '(endpoint, methods) =>
       foldM
         (fun prototype '(method, commandData) =>
            registerOne prototype (command method endpoint commandData grid))
         methods prototype)
    ProtocolCommands (mkPrototype [] None).

(** The tables are merged first; a raise in the loops leaves them
    merged. *)
Definition getPrototype (f : Flags) (s : Store) : Res Prototype * Store :=
  let '(base, s1) :=
    if isMobile f
    then let '(p, s') :=
           merge (Fresh []) [s JsonWProtocol; s WebDriverProtocol] s in
         (Fresh p, s')
    else if isW3C f then (Imported WebDriverProtocol, s)
    else (Imported JsonWProtocol, s) in
  let '(mobile, s2) :=
    if isMobile f
    then merge (Fresh []) [s1 MJsonWProtocol; s1 AppiumProtocol] s1
    else ([], s1) in
  let chrome := if isChrome f then s2 ChromiumProtocol else [] in
  let sauce := if isSauce f then s2 SauceLabsProtocol else [] in
  let selenium := if isSeleniumStandalone f then s2 SeleniumProtocol else [] in
  let '(ProtocolCommands, s3) :=
    merge base [mobile; chrome; sauce; selenium] s2 in
  (register (isSeleniumStandalone f) ProtocolCommands, s3).

(** *** The layers, as the specification lists them *)

(** The base layer: the legacy table with the compliant table merged
    over it for a mobile session, otherwise the compliant table alone
    or the legacy table alone. *)
Definition baseLayer (f : Flags) (s : Store) : Protocol :=
  if isMobile f
  then fold_left mergeProtocol [s JsonWProtocol; s WebDriverProtocol] []
  else if isW3C f then s WebDriverProtocol
  else s JsonWProtocol.

(** The layers merged over it, in order: mobile extensions, browser
    vendor, cloud vendor, grid server.  A layer that is switched off is
    empty. *)
Definition extensionLayers (f : Flags) (s : Store) : list Protocol :=
  [ if isMobile f
    then fold_left mergeProtocol [s MJsonWProtocol; s AppiumProtocol] []
    else [];
    if isChrome f then s ChromiumProtocol else [];
    if isSauce f then s SauceLabsProtocol else [];
    if isSeleniumStandalone f then s SeleniumProtocol else [] ].

Definition mergedTable (f : Flags) (s : Store) : Protocol :=
  fold_left mergeProtocol (extensionLayers f s) (baseLayer f s).

(** What a table holds at an endpoint and method. *)
Definition declared (p : Protocol) (endpoint method : string)
  : option Descriptor :=
  match find endpoint p with
  | Some methods => find method methods
  | None => None
  end.

(** Every description a table lists for an endpoint and method, in
    order (at most one in an object, whose keys are distinct). *)
Definition declarations (p : Protocol) (endpoint method : string)
  : list Descriptor :=
  flat_map
    (fun '(e, methods) =>
       if e =? endpoint
       then flat_map (fun '(m, d) => if m =? method then [d] else []) methods
       else [])
    p.

(** Descriptions merged one after the other over what is there. *)
Definition overlay (objValue : option Descriptor) (ds : list Descriptor)
  : option Descriptor :=
  fold_left (fun acc d => Some (mergeDescriptor acc d)) ds objValue.

(** The bindings of a table in the order the loops visit them. *)
Definition entries (grid : bool) (p : Protocol) : list Binding :=
  flat_map
    (fun '(endpoint, methods) =>
       map (fun '(method, commandData) =>
              command method endpoint commandData grid) methods)
    p.

(** A binding declares a name when its command converts to it. *)
Definition declaresName (name : string) (b : Binding) : bool :=
  match commandName (bound_commandData b) with
  | Ret n => n =? name
  | Throw _ => false
  end.

(** The last binding of a list that declares a name. *)
Definition lastNamed (name : string) (l : list Binding) : option Binding :=
  fold_left (fun acc b => if declaresName name b then Some b else acc) l None.

(** The binding a finished prototype holds as an own property. *)
Definition registered (name : string) (r : Res Prototype) : option Binding :=
  match r with
  | Ret prototype => find name (own prototype)
  | Throw _ => None
  end.

(** Last-merged-wins: among the layers in merge order, the last one
    that declares the name supplies the binding. *)
Definition lastMergedWins (name : string) (grid : bool)
           (layers : list Protocol) : option Binding :=
  fold_left
    (fun acc layer =>
       match lastNamed name (entries grid layer) with
       | Some b => Some b
       | None => acc
       end)
    layers None.

(** The table [merge] writes to when the session is not mobile. *)
Definition baseName (f : Flags) : ProtocolName :=
  if isW3C f then WebDriverProtocol else JsonWProtocol.

End Prototype.

Arguments mergeMethods {Descriptor} mergeDescriptor object source.
Arguments mergeProtocol {Descriptor} mergeDescriptor object source.
Arguments write {Descriptor} n p s.
Arguments Fresh {Descriptor} p.
Arguments Imported {Descriptor} n.
Arguments merge {Descriptor} mergeDescriptor object sources s.
Arguments command {Descriptor} bound_method bound_endpoint bound_commandData bound_grid.
Arguments bound_method {Descriptor} b.
Arguments bound_endpoint {Descriptor} b.
Arguments bound_commandData {Descriptor} b.
Arguments bound_grid {Descriptor} b.
Arguments register {Descriptor} commandName grid ProtocolCommands.
Arguments getPrototype {Descriptor} commandName mergeDescriptor f s.
Arguments baseLayer {Descriptor} mergeDescriptor f s.
Arguments extensionLayers {Descriptor} mergeDescriptor f s.
Arguments mergedTable {Descriptor} mergeDescriptor f s.
Arguments declared {Descriptor} p endpoint method.
Arguments declarations {Descriptor} p endpoint method.
Arguments overlay {Descriptor} mergeDescriptor objValue ds.
Arguments entries {Descriptor} grid p.
Arguments registerOne {Descriptor} commandName prototype b.
Arguments mkPrototype {Descriptor} own inherits.
Arguments own {Descriptor} p.
Arguments inherits {Descriptor} p.
Arguments declaresName {Descriptor} commandName name b.
Arguments registered {Descriptor} name r.
Arguments lastNamed {Descriptor} commandName name l.
Arguments lastMergedWins {Descriptor} commandName name grid layers.

(** *** Descriptions with primitive members *)

(** lodash's merge on a description whose members are strings, numbers
    or booleans: each member of the source is assigned, an [undefined]
    one only where the key is new. *)
Definition assignMergeValue (object : Obj) (key : string) (value : JsVal) : Obj :=
  if is_undefined value
     && match find key object with Some _ => true | None => false end
  then object
  else put key value object.

Definition mergeFlat (objValue : option Obj) (srcValue : Obj) : Obj :=
  fold_left (fun acc '(key, value) => assignMergeValue acc key value)
            srcValue
            (match objValue with Some o => o | None => [] end).

(** [commandData.command] used as a property key. *)
Definition commandOf (commandData : Obj) : Res string :=
  toStr (lookup "command" commandData).

(** *** Descriptions that declare their command *)

Section Declared.

(** A description as the tables of the protocols package hold it: its
    [command] is a string; the members beside it are kept as they are. *)
Variable Rest : Type.

Record CommandDescriptor : Type := mkDescriptor {
  its_command : string;
  its_rest : Rest
}.

(** What lodash's [merge] leaves of the other members. *)
Variable mergeRest : option Rest -> Rest -> Rest.

(** lodash's merge on such descriptions: each member of the source is
    merged on its own; [command], a string, is assigned over what the
    destination holds. *)
Definition mergeDeclared (objValue : option CommandDescriptor)
           (srcValue : CommandDescriptor) : CommandDescriptor :=
  mkDescriptor (its_command srcValue)
               (mergeRest (option_map its_rest objValue) (its_rest srcValue)).

(** A string is its own property key. *)
Definition declaredName (commandData : CommandDescriptor) : Res string :=
  Ret (its_command commandData).

(** The last of a list. *)
Definition lastOf (l : list CommandDescriptor) : option CommandDescriptor :=
  fold_left (fun _ d => Some d) l None.

End Declared.

Arguments mkDescriptor {Rest} its_command its_rest.
Arguments its_command {Rest} c.
Arguments its_rest {Rest} c.
Arguments mergeDeclared {Rest} mergeRest objValue srcValue.
Arguments declaredName {Rest} commandData.
Arguments lastOf {Rest} l.

(* ===================================================================== *)
(** ** Environment flags *)
(* ===================================================================== *)

Definition environmentFlags : list string :=
  ["isW3C"; "isMobile"; "isIOS"; "isAndroid"; "isChrome"; "isSauce";
   "isSeleniumStandalone"].

(** The parameter is destructured, which raises on [undefined] and
    [null]; each flag is wrapped as a property descriptor. *)
Definition getEnvironmentVars (options : JsVal) : Res JsVal :=
  isW3C <- get "isW3C" options ;;
  isMobile <- get "isMobile" options ;;
  isIOS <- get "isIOS" options ;;
  isAndroid <- get "isAndroid" options ;;
  isChrome <- get "isChrome" options ;;
  isSauce <- get "isSauce" options ;;
  isSeleniumStandalone <- get "isSeleniumStandalone" options ;;
  Ret (JObj [("isW3C", JObj [("value", isW3C)]);
             ("isMobile", JObj [("value", isMobile)]);
             ("isIOS", JObj [("value", isIOS)]);
             ("isAndroid", JObj [("value", isAndroid)]);
             ("isChrome", JObj [("value", isChrome)]);
             ("isSauce", JObj [("value", isSauce)]);
             ("isSeleniumStandalone", JObj [("value", isSeleniumStandalone)])]).

(* ===================================================================== *)
(** ** Where the code raises *)
(* ===================================================================== *)

(** A value that holds something and is neither a string nor an array:
    it has no [includes] method. *)
Definition noIncludes (v : JsVal) : bool :=
  truthy v && match v with JStr _ | JArr _ => false | _ => true end.

(** The value is an object that has the member as a key of its own,
    whatever the member holds. *)
Definition hasField (k : string) (v : JsVal) : bool :=
  match v with
  | JObj o => match find k o with Some _ => true | None => false end
  | _ => false
  end.

(** The bodies on which the classifier raises: the lazy-loading test
    meets a message that is not a string, or the body has a value and a
    legacy status that the debug line cannot convert to a string. *)
Definition classifierRaises (body : JsVal) : bool :=
  message_not_string body
  || (negb (is_undefined (member "value" body))
      && negb (printable (member "status" body))).

(** The four connection parameters convert to strings. *)
Definition printableParams (params : Obj) : bool :=
  printable (lookup "protocol" params)
  && printable (lookup "hostname" params)
  && printable (lookup "port" params)
  && printable (lookup "path" params).

(** A message that is a list of phrases, reaches the rule of the illegal
    capabilities, matches it, and cannot be joined into a string. *)
Definition illegalList (message : JsVal) : bool :=
  match message with
  | JArr l =>
      let has := fun m => existsb (fun x => is_str x m) l in
      negb (has "Whoops! The URL specified routes to this help page.")
      && negb (existsb has BROWSER_DRIVER_ERRORS)
      && negb (has "Bad Request - Invalid Hostname" && has "HTTP Error 400")
      && has "Illegal key values seen in w3c capabilities"
      && negb (printable message)
  | _ => false
  end.

(** The calls of [getSessionError] that raise: nothing to read [code]
    from; a refused connection whose parameters do not convert to
    strings; or, the connection not being refused, a message without
    [includes], or a list of phrases that cannot be joined. *)
Definition sessionErrorRaises (err : JsVal) (params : Obj) : bool :=
  nullish err
  || (if is_str (member "code" err) "ECONNREFUSED"
      then negb (printableParams params)
      else noIncludes (member "message" err)
           || illegalList (member "message" err)).

(** The bodies on which [CustomRequestError] is built and raises: the
    text for the [Error] constructor does not convert to a string, or
    [includes] is called on a message that has no such method. *)
Definition errorRaises (body : JsVal) : bool :=
  truthy body && is_object body
  && (truthy (member "value" body) || truthy (member "error" body))
  && (negb (printable (errorText (errorObjOf body)))
      || (negb (truthy (member "error" (errorObjOf body)))
          && noIncludes (member "message" (errorObjOf body)))).

(** The redirect values convert to strings for the log line. *)
Definition printableRedirect (capabilities : JsVal) : bool :=
  printable (member "directConnectProtocol" capabilities)
  && printable (member "directConnectHost" capabilities)
  && printable (member "directConnectPort" capabilities)
  && printable (member "directConnectPath" capabilities).

(** An [Error] object seen as a value: its [message], and its [name]
    when the constructor has set one. *)
Definition errorValue (e : ErrorObject) : JsVal :=
  JObj (("message", JStr (err_message e))
        :: match err_name e with
           | Some n => [("name", n)]
           | None => []
           end).

(* ===================================================================== *)
(** ** Sample inputs *)
(* ===================================================================== *)

(** A 404 reply of legacy status 7: an error other than "no such
    element", with an element-missing message. *)
Definition body_404_tolerated : JsVal :=
  JObj [("status", JNum 7);
        ("value", JObj [("error", JStr "unknown error");
                        ("message", JStr "no such element: #login")])].

(** A reply of legacy status 7 whose message is a number. *)
Definition body_message_number : JsVal :=
  JObj [("status", JNum 7); ("value", JObj [("message", JNum 5)])].


(** The flat envelope, with the identifier and nothing else. *)
Definition flat_envelope : JsVal := JObj [("sessionId", JStr "abc123")].

(** A refused connection to a local chromedriver. *)
Definition refused : JsVal :=
  JObj [("code", JStr "ECONNREFUSED");
        ("message", JStr "connect ECONNREFUSED 127.0.0.1:9515")].

Definition chromedriver_params : Obj :=
  [("protocol", JStr "http"); ("hostname", JStr "localhost");
   ("port", JNum 9515); ("path", JStr "/");
   ("capabilities", JObj [("browserName", JStr "chrome")])].

(** A reply whose error object has a number for a message. *)
Definition body_error_number : JsVal :=
  JObj [("value", JObj [("message", JNum 5)])].

(** The reply of a server that redirects the session. *)
Definition redirected_params : Obj :=
  [("hostname", JStr "hub.example.org"); ("port", JNum 4444);
   ("capabilities",
    JObj [("directConnectProtocol", JStr "https");
          ("directConnectHost", JStr "node7.example.org");
          ("directConnectPort", JNum 443);
          ("directConnectPath", JStr "")])].

(** Tables in which the browser vendor adds a method to an endpoint of
    the compliant table, under a name the compliant table uses further
    down. *)
Definition named (name : string) : Obj := [("command", JStr name)].

Definition sample_tables : Store Obj :=
  fun n =>
    match n with
    | WebDriverProtocol =>
        [("/session/:sessionId/url", [("POST", named "navigateTo")]);
         ("/session/:sessionId/title", [("GET", named "getTitle")])]
    | ChromiumProtocol =>
        [("/session/:sessionId/url", [("GET", named "getTitle")])]
    | _ => []
    end.

Definition chrome_flags : Flags :=
  mkFlags true true false false false.

Definition mobile_flags : Flags :=
  mkFlags true true true false false.

(** A reply the classifier accepts although its value is [null]. *)
Definition null_value_response : JsVal :=
  JObj [("sessionId", JStr "abc123"); ("value", JNull)].

(** The structured reply to a session request. *)
Definition chrome_response : JsVal :=
  JObj [("value",
         JObj [("sessionId", JStr "abc123");
               ("capabilities", JObj [("browserName", JStr "chrome")])])].

(** A session with no extension switched on. *)
Definition plain_flags : Flags :=
  mkFlags true false false false false.

(** An object that does not convert to a string: its own [toString] is
    not a function. *)
Definition unprintable : JsVal := JObj [("toString", JNum 1)].

(** A reply that has an identifier inside [value], the empty string, and
    another one beside it. *)
Definition empty_id_response : JsVal :=
  JObj [("sessionId", JStr "abc123"); ("value", JObj [("sessionId", JStr "")])].

(** Capabilities with an [alwaysMatch] member that holds nothing. *)
Definition null_alwaysMatch : JsVal :=
  JObj [("alwaysMatch", JNull); ("browserName", JStr "chrome")].

(** A compliant table with a command named [__proto__]. *)
Definition proto_tables : Store Obj :=
  fun n =>
    match n with
    | WebDriverProtocol =>
        [("/session/:sessionId/url", [("GET", named "__proto__")])]
    | _ => []
    end.

(** A reply of a legacy status that does not convert to a string. *)
Definition body_status_unprintable : JsVal :=
  JObj [("status", unprintable); ("value", JObj [])].

(** A redirect whose protocol does not convert to a string. *)
Definition unprintable_redirect_params : Obj :=
  [("hostname", JStr "hub.example.org"); ("port", JNum 4444);
   ("capabilities",
    JObj [("directConnectProtocol", unprintable);
          ("directConnectHost", JStr "node7.example.org");
          ("directConnectPort", JNum 443);
          ("directConnectPath", JStr "")])].

(** A redirect to port 0. *)
Definition port_zero_params : Obj :=
  [("hostname", JStr "hub.example.org"); ("port", JNum 4444);
   ("capabilities",
    JObj [("directConnectProtocol", JStr "https");
          ("directConnectHost", JStr "node7.example.org");
          ("directConnectPort", JNum 0);
          ("directConnectPath", JStr "")])].


(* ===================================================================== *)
(** * Properties *)
(* ===================================================================== *)

(** ** Reading properties *)

Lemma get_member (k : string) (v : JsVal) :
  nullish v = false -> get k v = Ret (member k v).
Proof. destruct v; simpl; intros H; try discriminate; reflexivity. Qed.

Lemma truthy_not_missing (v : JsVal) : truthy v = true -> nullish v = false.
Proof. destruct v; simpl; intros H; try discriminate; reflexivity. Qed.

Lemma falsy_member (k : string) (v : JsVal) :
  truthy v = false -> member k v = JUndefined.
Proof. destruct v; simpl; intros H; try discriminate; reflexivity. Qed.

Lemma find_put_same {A} (k : string) (v : A) (o : list (string * A)) :
  find k (put k v o) = Some v.
Proof.
  induction o as [|[k' v'] o IH]; simpl.
  - now rewrite String.eqb_refl.
  - destruct (k' =? k) eqn:E; simpl; rewrite E; auto.
Qed.

Lemma find_put_other {A} (k k' : string) (v : A) (o : list (string * A)) :
  k <> k' -> find k' (put k v o) = find k' o.
Proof.
  intros N. induction o as [|[k0 v0] o IH]; simpl.
  - destruct (k =? k') eqn:E; auto. apply String.eqb_eq in E. contradiction.
  - destruct (k0 =? k) eqn:E; simpl.
    + apply String.eqb_eq in E. subst k0.
      destruct (k =? k') eqn:E'; auto. apply String.eqb_eq in E'. contradiction.
    + destruct (k0 =? k'); auto.
Qed.

(** ** Converting to a string *)

Lemma join_cases (f : JsVal -> Res string) (l : list JsVal) :
  Forall (fun x => (exists s, f x = Ret s) \/ f x = Throw TypeError) l ->
  (exists s, join_with f l = Ret s) \/ join_with f l = Throw TypeError.
Proof.
  induction 1 as [|x l Hx _ IH]; cbn [join_with]; [left; eauto|].
  destruct l as [|y l]; [exact Hx|].
  destruct Hx as [[s ->]| ->]; cbn [bind]; [|now right].
  destruct IH as [[r ->]| ->]; cbn [bind]; [left; eauto|now right].
Qed.

(** A conversion either gives a string or raises a [TypeError]. *)
Lemma toStr_cases (v : JsVal) :
  (exists s, toStr v = Ret s) \/ toStr v = Throw TypeError.
Proof.
  induction v as [| |b|n|s|l IH|o IH] using JsVal_induction;
    cbn [toStr]; try (left; eauto; fail).
  - destruct b; left; eauto.
  - apply join_cases. eapply Forall_impl; [|exact IH].
    intros x Hx. destruct x; try exact Hx; left; eauto.
  - destruct (find "toString" o); [now right|left; eauto].
Qed.

Lemma printable_returns (v : JsVal) :
  printable v = true -> exists s, toStr v = Ret s.
Proof. unfold printable. destruct (toStr v); [eauto|discriminate]. Qed.

Lemma unprintable_raises (v : JsVal) :
  printable v = false -> toStr v = Throw TypeError.
Proof.
  unfold printable. destruct (toStr_cases v) as [[s ->]| ->];
    [discriminate|reflexivity].
Qed.

(** What is not an object or an array always converts. *)
Lemma printable_primitive (v : JsVal) :
  match v with JArr _ | JObj _ => False | _ => True end -> printable v = true.
Proof. destruct v as [| |[|]| | | |]; cbn; tauto. Qed.

(** ** The classifier *)

Lemma elementNotFound_returns (status value : JsVal) :
  (is_num status 7 && truthy (member "message" value)
   && match member "message" value with JStr _ => false | _ => true end) = false ->
  elementNotFound status value
  = Ret (is_num status 7 && element_missing_message (member "message" value)).
Proof.
  unfold elementNotFound. intros H.
  destruct (is_num status 7); simpl in *; [|reflexivity].
  destruct (truthy value) eqn:Tv.
  - rewrite (get_member _ _ (truthy_not_missing _ Tv)). simpl.
    destruct (member "message" value) as [| |b|n|s|l|o] eqn:M; simpl in *;
      try reflexivity; try discriminate.
    + destruct b; [discriminate|reflexivity].
    + destruct (n =? 0)%Z; [reflexivity|discriminate].
    + destruct (s =? "") eqn:Es; simpl.
      * apply String.eqb_eq in Es. subst s. reflexivity.
      * unfold startsWith.
        destruct (String.prefix "no such element" (lower s)); simpl; [reflexivity|].
        destruct (s =? appium_not_found); reflexivity.
  - rewrite (falsy_member _ _ Tv). reflexivity.
Qed.

Lemma elementNotFound_raises (status value : JsVal) :
  (is_num status 7 && truthy (member "message" value)
   && match member "message" value with JStr _ => false | _ => true end) = true ->
  elementNotFound status value = Throw TypeError.
Proof.
  unfold elementNotFound. intros H.
  apply andb_prop in H. destruct H as [H H3].
  apply andb_prop in H. destruct H as [H1 H2].
  rewrite H1. simpl.
  destruct (truthy value) eqn:Tv.
  - rewrite (get_member _ _ (truthy_not_missing _ Tv)). simpl. rewrite H2.
    destruct (member "message" value); try discriminate; reflexivity.
  - rewrite (falsy_member _ _ Tv) in H2. discriminate.
Qed.

Lemma hasErrorResponse_indicator (body : JsVal) :
  exists v, hasErrorResponse (member "value" body) = Ret v
            /\ truthy v = error_indicator body.
Proof.
  unfold hasErrorResponse, error_indicator, present.
  destruct (truthy (member "value" body)) eqn:Tv.
  - rewrite !(get_member _ _ (truthy_not_missing _ Tv)). simpl.
    destruct (truthy (member "error" (member "value" body))) eqn:Te.
    + eexists; split; [reflexivity|]. now rewrite Te.
    + simpl. destruct (truthy (member "stackTrace" (member "value" body))) eqn:Ts.
      * eexists; split; [reflexivity|]. now rewrite Ts.
      * eexists; split; [reflexivity|]. reflexivity.
  - eexists; split; [reflexivity|]. rewrite Tv.
    now rewrite !(falsy_member _ _ Tv).
Qed.

Lemma notFound_returns (statusCode value : JsVal) :
  (if is_num statusCode 404 && truthy value
   then e <- get "error" value ;; Ret (is_str e "no such element")
   else Ret false)
  = Ret (is_num statusCode 404 && is_str (member "error" value) "no such element").
Proof.
  destruct (is_num statusCode 404); simpl; [|reflexivity].
  destruct (truthy value) eqn:Tv.
  - now rewrite (get_member _ _ (truthy_not_missing _ Tv)).
  - now rewrite (falsy_member _ _ Tv).
Qed.

Lemma classifierRaises_false (body : JsVal) :
  classifierRaises body = false ->
  message_not_string body = false
  /\ (is_undefined (member "value" body) = false ->
      exists s, toStr (member "status" body) = Ret s).
Proof.
  unfold classifierRaises. intros H. apply orb_false_elim in H.
  destruct H as [M S]. split; [exact M|]. intros V. rewrite V in S.
  cbn [negb andb] in S. apply printable_returns.
  now destruct (printable (member "status" body)).
Qed.

(** The code agrees with the decision table wherever it does not
    raise. *)
Lemma isSuccessfulResponse_table (statusCode body : JsVal) :
  classifierRaises body = false ->
  isSuccessfulResponse statusCode body
  = Ret (succeeded (classify statusCode body)).
Proof.
  intros Hc. destruct (classifierRaises_false _ Hc) as [Hm Hs].
  unfold isSuccessfulResponse, classify.
  destruct (truthy body) eqn:Tb; simpl.
  - rewrite (get_member _ _ (truthy_not_missing _ Tb)).
    unfold body_missing. rewrite (truthy_not_missing _ Tb). simpl.
    unfold no_value_field.
    destruct (is_undefined (member "value" body)) eqn:V; [reflexivity|].
    rewrite (get_member _ _ (truthy_not_missing _ Tb)). simpl.
    rewrite (elementNotFound_returns _ _ Hm). simpl.
    destruct (is_num (member "status" body) 7
              && element_missing_message (member "message" (member "value" body)));
      [reflexivity|].
    unfold present.
    destruct (truthy (member "status" body) && negb (is_num (member "status" body) 0)).
    { destruct (Hs eq_refl) as [s ->]. reflexivity. }
    destruct (hasErrorResponse_indicator body) as [v [Hv Tv]].
    rewrite Hv. simpl. rewrite Tv.
    destruct (is_num statusCode 200 && negb (error_indicator body)); [reflexivity|].
    rewrite notFound_returns. simpl.
    destruct (is_num statusCode 404
              && is_str (member "error" (member "value" body)) "no such element");
      [reflexivity|].
    destruct (error_indicator body); reflexivity.
  - unfold no_value_field. rewrite (falsy_member _ _ Tb). simpl.
    now rewrite orb_true_r.
Qed.

(** The lazy-loading test raises on a message that is not a string. *)
Lemma isSuccessfulResponse_raises (statusCode body : JsVal) :
  message_not_string body = true ->
  isSuccessfulResponse statusCode body = Throw TypeError.
Proof.
  intros Hm. unfold isSuccessfulResponse.
  assert (Tv : truthy (member "value" body) = true).
  { unfold message_not_string in Hm.
    destruct (truthy (member "value" body)) eqn:Tv; [reflexivity|].
    rewrite (falsy_member _ _ Tv) in Hm. simpl in Hm.
    now rewrite andb_false_r in Hm. }
  assert (Tb : truthy body = true).
  { destruct (truthy body) eqn:Tb; [reflexivity|].
    rewrite (falsy_member _ _ Tb) in Tv. discriminate. }
  rewrite Tb. simpl.
  rewrite !(get_member _ _ (truthy_not_missing _ Tb)). simpl.
  destruct (member "value" body) eqn:V; try discriminate; simpl;
    rewrite <- V; rewrite (elementNotFound_raises _ _ Hm); reflexivity.
Qed.

(** The debug line raises on a legacy status that does not convert to a
    string, once the body has a value. *)
Lemma isSuccessfulResponse_raises_status (statusCode body : JsVal) :
  is_undefined (member "value" body) = false ->
  printable (member "status" body) = false ->
  isSuccessfulResponse statusCode body = Throw TypeError.
Proof.
  intros V P. unfold isSuccessfulResponse.
  assert (Tb : truthy body = true).
  { destruct (truthy body) eqn:Tb; [reflexivity|].
    rewrite (falsy_member _ _ Tb) in V. discriminate. }
  rewrite Tb. cbn [negb].
  rewrite !(get_member _ _ (truthy_not_missing _ Tb)). cbn [bind].
  rewrite V. rewrite (unprintable_raises _ P).
  assert (S : match member "status" body with JArr _ | JObj _ => True | _ => False end).
  { destruct (member "status" body) as [| |[|]| | | |]; try exact I;
      discriminate. }
  unfold elementNotFound.
  destruct (member "status" body); try contradiction; reflexivity.
Qed.

Lemma classifierRaises_true (statusCode body : JsVal) :
  classifierRaises body = true ->
  isSuccessfulResponse statusCode body = Throw TypeError.
Proof.
  unfold classifierRaises. intros H.
  destruct (message_not_string body) eqn:M;
    [now apply isSuccessfulResponse_raises|].
  cbn [orb] in H. apply andb_prop in H. destruct H as [V P].
  apply isSuccessfulResponse_raises_status.
  - now destruct (is_undefined (member "value" body)).
  - now destruct (printable (member "status" body)).
Qed.

Example classify_200_empty_value :
  isSuccessfulResponse (JNum 200) (JObj [("value", JObj [])]) = Ret true.
Proof. reflexivity. Qed.

Example classify_200_error :
  isSuccessfulResponse (JNum 200)
    (JObj [("value", JObj [("error", JStr "no such element")])]) = Ret false.
Proof. reflexivity. Qed.

Example classify_404_no_such_element :
  isSuccessfulResponse (JNum 404)
    (JObj [("value", JObj [("error", JStr "no such element")])]) = Ret true.
Proof. reflexivity. Qed.

Example classify_404_other_error :
  isSuccessfulResponse (JNum 404)
    (JObj [("value", JObj [("error", JStr "no such window")])]) = Ret false.
Proof. reflexivity. Qed.

Example classify_status_7 :
  isSuccessfulResponse (JNum 500)
    (JObj [("status", JNum 7);
           ("value", JObj [("message", JStr "No such element: xyz")])])
  = Ret true.
Proof. reflexivity. Qed.

Example classify_status_13 :
  isSuccessfulResponse (JNum 200)
    (JObj [("status", JNum 13); ("value", JObj [("message", JStr "boom")])])
  = Ret false.
Proof. reflexivity. Qed.

Example classify_no_body :
  isSuccessfulResponse (JNum 200) JUndefined = Ret false
  /\ classify (JNum 200) JUndefined = Failure "missing body".
Proof. split; reflexivity. Qed.

(** C1, as amended.  On every status code and body on which the code
    does not raise (the lazy-loading test meets no message that is not a
    string, and the debug line no legacy status that does not convert to
    a string), [isSuccessfulResponse] returns what the seven-rule,
    first-match-wins decision table [classify] says, "present" meaning
    truthy.  In particular a 404 whose [value.error] is present and is not
    "no such element" fails, unless rule 2 tolerates the body. *)
Theorem isSuccessfulResponse_follows_classify (statusCode body : JsVal) :
  classifierRaises body = false ->
  isSuccessfulResponse statusCode body
  = Ret (succeeded (classify statusCode body))
  /\ (is_num statusCode 404 = true ->
      present (member "error" (member "value" body)) = true ->
      is_str (member "error" (member "value" body)) "no such element" = false ->
      (is_num (member "status" body) 7
       && element_missing_message (member "message" (member "value" body))) = false ->
      isSuccessfulResponse statusCode body = Ret false).
Proof.
  intros Hm. split; [now apply isSuccessfulResponse_table|].
  intros H404 He Hn H2.
  rewrite (isSuccessfulResponse_table _ _ Hm). f_equal.
  unfold classify. rewrite H2.
  destruct (body_missing body || no_value_field body); [reflexivity|].
  destruct (present (member "status" body) && negb (is_num (member "status" body) 0));
    [reflexivity|].
  assert (Hi : error_indicator body = true)
    by (unfold error_indicator; now rewrite He).
  rewrite Hi, Hn. simpl. rewrite !andb_false_r. reflexivity.
Qed.

Lemma isSuccessfulResponse_follows_classify_witness :
  classifierRaises body_404_tolerated = false
  /\ isSuccessfulResponse (JNum 404) body_404_tolerated
     = Ret (succeeded (classify (JNum 404) body_404_tolerated)).
Proof.
  split; [reflexivity|].
  apply (isSuccessfulResponse_follows_classify (JNum 404) body_404_tolerated).
  reflexivity.
Defined.

(** C1, as stated, fails: a 404 whose [value.error] is not "no such
    element" is reported as successful when rule 2 tolerates the body,
    and also when the body carries no error indicator at all; and on a
    legacy status 7 with a number for a message, or on a legacy status
    that does not convert to a string, the code raises where the table
    decides. *)
Lemma classify_404_not_always_failure :
  (isSuccessfulResponse (JNum 404) body_404_tolerated = Ret true
   /\ is_str (member "error" (member "value" body_404_tolerated)) "no such element"
      = false
   /\ isSuccessfulResponse (JNum 404) (JObj [("value", JObj [])]) = Ret true)
  /\ (isSuccessfulResponse (JNum 200) body_message_number = Throw TypeError
      /\ classify (JNum 200) body_message_number = Failure "non-zero legacy status")
  /\ (isSuccessfulResponse (JNum 200) body_status_unprintable = Throw TypeError
      /\ classify (JNum 200) body_status_unprintable
         = Failure "non-zero legacy status").
Proof. repeat split; reflexivity. Qed.

(** C8: the classifier raises on a body of legacy status 7 whose
    [value.message] is a number, where the specification has it return an
    outcome. *)
Theorem isSuccessfulResponse_raises_on_number_message :
  isSuccessfulResponse (JNum 200) body_message_number = Throw TypeError.
Proof. reflexivity. Qed.

(** ** Capability negotiation *)

(** C2, as amended.  The two forms built from the requested
    capabilities: when the input's [alwaysMatch] member holds a truthy
    value, the structured form is the input and the legacy form is that
    member; otherwise (no such member, or one that holds [null],
    [false], 0 or the empty string) the structured form wraps the input
    as [{alwaysMatch: input, firstMatch: [{}]}] and the legacy form is
    the input. *)
Theorem capabilityForms_dual (capabilities : JsVal) :
  capabilityForms capabilities
  = Ret (if present (member "alwaysMatch" capabilities)
         then (capabilities, member "alwaysMatch" capabilities)
         else (JObj [("alwaysMatch", capabilities);
                     ("firstMatch", JArr [JObj []])],
               capabilities)).
Proof.
  unfold capabilityForms, present.
  destruct (truthy capabilities) eqn:Tc.
  - rewrite (get_member _ _ (truthy_not_missing _ Tc)). simpl.
    destruct (truthy (member "alwaysMatch" capabilities)); reflexivity.
  - simpl. rewrite Tc. now rewrite (falsy_member _ _ Tc).
Qed.

(** C2, as stated, fails: capabilities that have an [alwaysMatch] field,
    holding [null], are wrapped like capabilities that have none. *)
Lemma alwaysMatch_null_is_wrapped :
  hasField "alwaysMatch" null_alwaysMatch = true
  /\ capabilityForms null_alwaysMatch
     = Ret (JObj [("alwaysMatch", null_alwaysMatch); ("firstMatch", JArr [JObj []])],
            null_alwaysMatch)
  /\ capabilityForms null_alwaysMatch
     <> Ret (null_alwaysMatch, member "alwaysMatch" null_alwaysMatch).
Proof. repeat split; try reflexivity. discriminate. Qed.

Example capabilityForms_chrome :
  capabilityForms (JObj [("browserName", JStr "chrome")])
  = Ret (JObj [("alwaysMatch", JObj [("browserName", JStr "chrome")]);
               ("firstMatch", JArr [JObj []])],
         JObj [("browserName", JStr "chrome")]).
Proof. reflexivity. Qed.

(** ** Reading the session out of the response *)

Lemma sessionIdOf_value (response : JsVal) :
  nullish (member "value" response) = false ->
  sessionIdOf response
  = Ret (if present (member "sessionId" (member "value" response))
         then member "sessionId" (member "value" response)
         else member "sessionId" response).
Proof.
  intros Hv. unfold sessionIdOf, present.
  assert (Hr : nullish response = false)
    by (destruct response; try reflexivity; discriminate).
  rewrite !(get_member _ _ Hr). simpl.
  rewrite !(get_member _ _ Hv). simpl.
  destruct (truthy (member "sessionId" (member "value" response))); reflexivity.
Qed.

Lemma capabilitiesOf_value (response : JsVal) :
  nullish (member "value" response) = false ->
  capabilitiesOf response
  = Ret (if present (member "capabilities" (member "value" response))
         then member "capabilities" (member "value" response)
         else member "value" response).
Proof.
  intros Hv. unfold capabilitiesOf, present.
  assert (Hr : nullish response = false)
    by (destruct response; try reflexivity; discriminate).
  rewrite !(get_member _ _ Hr). simpl.
  rewrite !(get_member _ _ Hv). simpl.
  destruct (truthy (member "capabilities" (member "value" response))); reflexivity.
Qed.


(** C4, as amended.  For a response whose [value] is neither [undefined]
    nor [null], the session id is [response.value.sessionId] when that is
    truthy and [response.sessionId] otherwise, and the capabilities are
    [response.value.capabilities] when that is truthy and
    [response.value] otherwise.  So a truthy identifier comes out the
    same from the structured envelope [{value: {sessionId,
    capabilities}}] and from the flat envelope [{sessionId, value}]
    whose [value], the capabilities, is neither [undefined] nor [null]
    and holds no truthy [sessionId] of its own. *)
Theorem session_extraction :
  (forall response : JsVal,
      nullish (member "value" response) = false ->
      sessionIdOf response
      = Ret (if truthy (member "sessionId" (member "value" response))
             then member "sessionId" (member "value" response)
             else member "sessionId" response)
      /\ capabilitiesOf response
         = Ret (if truthy (member "capabilities" (member "value" response))
                then member "capabilities" (member "value" response)
                else member "value" response))
  /\ (forall sessionId capabilities : JsVal,
        truthy sessionId = true ->
        nullish capabilities = false ->
        truthy (member "sessionId" capabilities) = false ->
        sessionIdOf (JObj [("value", JObj [("sessionId", sessionId);
                                           ("capabilities", capabilities)])])
        = Ret sessionId
        /\ sessionIdOf (JObj [("sessionId", sessionId); ("value", capabilities)])
           = Ret sessionId).
Proof.
  split.
  - intros response Hv.
    split; [now apply sessionIdOf_value | now apply capabilitiesOf_value].
  - intros sessionId capabilities Hs Hc Hn. split.
    + rewrite sessionIdOf_value by reflexivity.
      simpl. unfold lookup, present. simpl. now rewrite Hs.
    + rewrite sessionIdOf_value by exact Hc.
      simpl. unfold lookup at 1 2 3. unfold present. simpl. now rewrite Hn.
Qed.

Lemma session_extraction_witness :
  (nullish (member "value" (JObj [("sessionId", JStr "abc123");
                                  ("value", JObj [("browserName", JStr "chrome")])]))
   = false
   /\ sessionIdOf (JObj [("sessionId", JStr "abc123");
                         ("value", JObj [("browserName", JStr "chrome")])])
      = Ret (JStr "abc123")
   /\ capabilitiesOf (JObj [("sessionId", JStr "abc123");
                            ("value", JObj [("browserName", JStr "chrome")])])
      = Ret (JObj [("browserName", JStr "chrome")]))
  /\ (sessionIdOf (JObj [("value", JObj [("sessionId", JStr "abc123");
                                         ("capabilities",
                                          JObj [("browserName", JStr "chrome")])])])
      = Ret (JStr "abc123")
      /\ sessionIdOf (JObj [("sessionId", JStr "abc123");
                            ("value", JObj [("browserName", JStr "chrome")])])
         = Ret (JStr "abc123")).
Proof.
  split.
  - split; [reflexivity|].
    apply (proj1 session_extraction
                 (JObj [("sessionId", JStr "abc123");
                        ("value", JObj [("browserName", JStr "chrome")])])).
    reflexivity.
  - apply (proj2 session_extraction (JStr "abc123")
                 (JObj [("browserName", JStr "chrome")])); reflexivity.
Defined.

(** C4, as stated, fails on replies the classifier accepts.  The flat
    envelope with a [null] value has an identifier and extraction raises
    instead of yielding it, and so does the session start; a reply whose
    [value] has a [sessionId], the empty string, yields the identifier
    beside it.  (The flat envelope with no [value] at all raises too, but
    the classifier rejects it first.) *)
Lemma accepted_flat_envelope_raises :
  (isSuccessfulResponse (JNum 200) null_value_response = Ret true
   /\ member "sessionId" null_value_response = JStr "abc123"
   /\ sessionIdOf null_value_response = Throw TypeError
   /\ startWebDriverSession (fun _ _ _ _ => inr null_value_response)
                            chromedriver_params
      = (Throw TypeError, chromedriver_params))
  /\ (isSuccessfulResponse (JNum 200) empty_id_response = Ret true
      /\ hasField "sessionId" (member "value" empty_id_response) = true
      /\ member "sessionId" (member "value" empty_id_response) = JStr ""
      /\ sessionIdOf empty_id_response = Ret (JStr "abc123"))
  /\ (isSuccessfulResponse (JNum 200) flat_envelope = Ret false
      /\ sessionIdOf flat_envelope = Throw TypeError).
Proof. repeat split; reflexivity. Qed.

(** ** Transport errors *)

Lemma some_includes (s : string) (l : list string) :
  some (fun m => includes (JStr s) m) l = Ret (existsb (str_includes s) l).
Proof.
  induction l as [|m l IH]; simpl; [reflexivity|].
  destruct (str_includes s m); simpl; [reflexivity|exact IH].
Qed.

(** On an [Error] object the code gives what the rule table gives, and
    raises where building the guidance raises. *)
Lemma getSessionError_rules (err : JsVal) (params : Obj) :
  isErrorValue err = true ->
  getSessionError err params
  = (advice <- toDiagnostic err params ;; Ret (JStr advice)).
Proof.
  destruct err as [| | | | | |o]; try discriminate.
  unfold isErrorValue, getSessionError, toDiagnostic, diagnostic_rules,
    first_match, text, member, get.
  cbn [bind]. intros H.
  destruct (is_str (lookup "code" o) "ECONNREFUSED"); [reflexivity|].
  destruct (lookup "message" o) as [| | | |s| |]; try discriminate.
  - reflexivity.
  - rewrite some_includes. unfold is_str, truthy, includes. cbn [bind toStr].
    destruct (s =? "unhandled request"); [reflexivity|].
    destruct (s =? ""); [reflexivity|]. cbn [negb].
    destruct (str_includes s "Whoops! The URL specified routes to this help page.");
      [reflexivity|].
    destruct (existsb (str_includes s) BROWSER_DRIVER_ERRORS); [reflexivity|].
    destruct (str_includes s "Bad Request - Invalid Hostname"); cbn [andb].
    + destruct (str_includes s "HTTP Error 400"); [reflexivity|].
      destruct (str_includes s "Illegal key values seen in w3c capabilities");
        [reflexivity|].
      destruct (s =? "Response has empty body"); reflexivity.
    + destruct (str_includes s "Illegal key values seen in w3c capabilities");
        [reflexivity|].
      destruct (s =? "Response has empty body"); reflexivity.
Qed.

Lemma getSessionError_refused (err : JsVal) (params : Obj) :
  is_str (member "code" err) "ECONNREFUSED" = true ->
  getSessionError err params
  = (advice <- msg_refused params ;; Ret (JStr advice)).
Proof.
  intros H. unfold getSessionError.
  assert (Hn : nullish err = false)
    by (destruct err; try reflexivity; discriminate).
  rewrite (get_member _ _ Hn). unfold bind at 1. now rewrite H.
Qed.

Lemma target_printable (params : Obj) :
  printableParams params = true -> exists s, target params = Ret s.
Proof.
  unfold printableParams, target. intros H.
  apply andb_prop in H. destruct H as [H P4].
  apply andb_prop in H. destruct H as [H P3].
  apply andb_prop in H. destruct H as [P1 P2].
  destruct (printable_returns _ P1) as [s1 ->].
  destruct (printable_returns _ P2) as [s2 ->].
  destruct (printable_returns _ P3) as [s3 ->].
  destruct (printable_returns _ P4) as [s4 ->].
  cbn [bind]. eauto.
Qed.

Lemma target_unprintable (params : Obj) :
  printableParams params = false -> target params = Throw TypeError.
Proof.
  unfold printableParams, target. intros H.
  destruct (printable (lookup "protocol" params)) eqn:P1;
    [|now rewrite (unprintable_raises _ P1)].
  destruct (printable_returns _ P1) as [s1 ->]. cbn [bind].
  destruct (printable (lookup "hostname" params)) eqn:P2;
    [|now rewrite (unprintable_raises _ P2)].
  destruct (printable_returns _ P2) as [s2 ->]. cbn [bind].
  destruct (printable (lookup "port" params)) eqn:P3;
    [|now rewrite (unprintable_raises _ P3)].
  destruct (printable_returns _ P3) as [s3 ->]. cbn [bind].
  destruct (printable (lookup "path" params)) eqn:P4;
    [discriminate|now rewrite (unprintable_raises _ P4)].
Qed.

(** For an [Error] object the rule table gives guidance unless the
    connection was refused and the parameters do not convert. *)
Lemma toDiagnostic_returns (err : JsVal) (params : Obj) :
  is_str (member "code" err) "ECONNREFUSED" = false
  \/ printableParams params = true ->
  exists advice, toDiagnostic err params = Ret advice.
Proof.
  intros H. unfold toDiagnostic, diagnostic_rules, first_match.
  destruct (is_str (member "code" err) "ECONNREFUSED").
  - destruct H as [H|H]; [discriminate|]. unfold msg_refused.
    destruct (target_printable _ H) as [s ->]. cbn [bind]. eauto.
  - destruct (text err =? "unhandled request"); [eauto|].
    destruct (text err =? ""); [eauto|].
    destruct (str_includes (text err)
                "Whoops! The URL specified routes to this help page."); [eauto|].
    destruct (existsb (str_includes (text err)) BROWSER_DRIVER_ERRORS); [eauto|].
    destruct (str_includes (text err) "Bad Request - Invalid Hostname"
              && str_includes (text err) "HTTP Error 400"); [eauto|].
    destruct (str_includes (text err)
                "Illegal key values seen in w3c capabilities"); [eauto|].
    destruct (text err =? "Response has empty body"); eauto.
Qed.

(** C10.  On a transport error, [getSessionError] gives the guidance of
    the first rule of the ordered table that applies, and the message
    itself when none does; it raises where building that guidance
    raises, which only the guidance for a refused connection can, on
    parameters that do not convert to strings.  For a refused connection
    with the parameters
    [{protocol: "http", hostname: "localhost", port: 9515, path: "/"}] the
    message holds the address "http://localhost:9515/". *)
Theorem getSessionError_first_match (err : JsVal) (params : Obj) :
  (isErrorValue err = true ->
   getSessionError err params
   = (advice <- toDiagnostic err params ;; Ret (JStr advice)))
  /\ (is_str (member "code" err) "ECONNREFUSED" = true ->
      exists message,
        getSessionError err chromedriver_params = Ret (JStr message)
        /\ str_includes message "http://localhost:9515/" = true)
  /\ (isErrorValue err = true ->
      is_str (member "code" err) "ECONNREFUSED" = false
      \/ printableParams params = true ->
      exists advice,
        toDiagnostic err params = Ret advice
        /\ getSessionError err params = Ret (JStr advice)).
Proof.
  split; [|split].
  - apply getSessionError_rules.
  - intros H. rewrite (getSessionError_refused _ _ H).
    eexists. split; [reflexivity|]. vm_compute. reflexivity.
  - intros He Hp. rewrite (getSessionError_rules _ _ He).
    destruct (toDiagnostic_returns _ _ Hp) as [advice E].
    exists advice. split; [exact E|]. now rewrite E.
Qed.

(** The refused connection is tested first: it wins over a message that
    a later rule would match. *)
Example getSessionError_refused_first :
  getSessionError
    (JObj [("code", JStr "ECONNREFUSED"); ("message", JStr "unhandled request")])
    chromedriver_params
  = (advice <- msg_refused chromedriver_params ;; Ret (JStr advice)).
Proof. reflexivity. Qed.

Example getSessionError_unknown_command :
  getSessionError
    (JObj [("message", JStr "unknown command: wd/hub/session")])
    chromedriver_params
  = Ret (JStr "Make sure to set `path: '/'` in your wdio.conf.js!").
Proof. reflexivity. Qed.

Lemma getSessionError_first_match_witness :
  isErrorValue refused = true
  /\ getSessionError refused chromedriver_params
     = (advice <- toDiagnostic refused chromedriver_params ;; Ret (JStr advice)).
Proof.
  split; [reflexivity|].
  apply (getSessionError_first_match refused chromedriver_params).
  reflexivity.
Defined.

(** ** Session start *)

Lemma capabilityForms_returns (capabilities : JsVal) :
  exists w3cCaps jsonwpCaps,
    capabilityForms capabilities = Ret (w3cCaps, jsonwpCaps).
Proof.
  unfold capabilityForms.
  destruct (truthy capabilities) eqn:Tc.
  - rewrite (get_member _ _ (truthy_not_missing _ Tc)). simpl.
    destruct (truthy (member "alwaysMatch" capabilities)); eauto.
  - simpl. rewrite Tc. eauto.
Qed.




Example startWebDriverSession_chrome :
  startWebDriverSession
    (fun _ _ _ _ =>
       inr (JObj [("value",
                   JObj [("sessionId", JStr "abc123");
                         ("capabilities", JObj [("browserName", JStr "chrome")])])]))
    [("capabilities", JObj [("browserName", JStr "chrome")])]
  = (Ret (JStr "abc123"),
     [("capabilities", JObj [("browserName", JStr "chrome")]);
      ("requestedCapabilities",
       JObj [("w3cCaps",
              JObj [("alwaysMatch", JObj [("browserName", JStr "chrome")]);
                    ("firstMatch", JArr [JObj []])]);
             ("jsonwpCaps", JObj [("browserName", JStr "chrome")])])]).
Proof. reflexivity. Qed.

(** ** Direct connect *)

Lemma lookup_put_same (k : string) (v : JsVal) (o : Obj) :
  lookup k (put k v o) = v.
Proof. unfold lookup. now rewrite find_put_same. Qed.

Lemma lookup_put_other (k k' : string) (v : JsVal) (o : Obj) :
  (k =? k') = false -> lookup k' (put k v o) = lookup k' o.
Proof.
  intros N. unfold lookup. rewrite find_put_other; [reflexivity|].
  now apply String.eqb_neq.
Qed.

Lemma directConnectLine_cases (p h n t : JsVal) :
  if printable p && printable h && printable n && printable t
  then exists line, directConnectLine p h n t = Ret line
  else directConnectLine p h n t = Throw TypeError.
Proof.
  unfold directConnectLine.
  destruct (printable p) eqn:P1; cbn [andb];
    [|now rewrite (unprintable_raises _ P1)].
  destruct (printable_returns _ P1) as [s1 ->]. cbn [bind].
  destruct (printable h) eqn:P2; cbn [andb];
    [|now rewrite (unprintable_raises _ P2)].
  destruct (printable_returns _ P2) as [s2 ->]. cbn [bind].
  destruct (printable n) eqn:P3; cbn [andb];
    [|now rewrite (unprintable_raises _ P3)].
  destruct (printable_returns _ P3) as [s3 ->]. cbn [bind].
  destruct (printable t) eqn:P4;
    [|now rewrite (unprintable_raises _ P4)].
  destruct (printable_returns _ P4) as [s4 ->]. cbn [bind]. eauto.
Qed.

(** C7, as amended.  The rewrite fires exactly when the capabilities
    hold a redirect protocol, host and port that are truthy and a
    redirect path that is truthy or the empty string, and the four values
    convert to strings for the log line: then [params.protocol],
    [params.hostname], [params.port] and [params.path] hold the four
    values and every other member of [params] reads as before; in every
    other case [params] is left as it was. *)
Theorem setupDirectConnect_rewrite (params : Obj) :
  let capabilities := lookup "capabilities" params in
  let params' := snd (setupDirectConnect params) in
  if carriesDirectConnect capabilities && printableRedirect capabilities
  then forall k,
      lookup k params'
      = if k =? "protocol" then member "directConnectProtocol" capabilities
        else if k =? "hostname" then member "directConnectHost" capabilities
        else if k =? "port" then member "directConnectPort" capabilities
        else if k =? "path" then member "directConnectPath" capabilities
        else lookup k params
  else params' = params.
Proof.
  cbv zeta. unfold setupDirectConnect, carriesDirectConnect, printableRedirect,
    present.
  destruct (nullish (lookup "capabilities" params)) eqn:N.
  - destruct (lookup "capabilities" params); try discriminate; reflexivity.
  - rewrite !(get_member _ _ N). cbn [bind]. unfold directConnectReady.
    set (c := lookup "capabilities" params).
    destruct (truthy (member "directConnectProtocol" c)
              && truthy (member "directConnectHost" c)
              && truthy (member "directConnectPort" c)
              && (truthy (member "directConnectPath" c)
                  || is_str (member "directConnectPath" c) ""));
      [|reflexivity].
    cbn [andb].
    pose proof (directConnectLine_cases
                  (member "directConnectProtocol" c) (member "directConnectHost" c)
                  (member "directConnectPort" c) (member "directConnectPath" c)) as L.
    destruct (printable (member "directConnectProtocol" c)
              && printable (member "directConnectHost" c)
              && printable (member "directConnectPort" c)
              && printable (member "directConnectPath" c));
      [|now rewrite L].
    destruct L as [line ->].
    intros k. cbn [snd].
    destruct (k =? "path") eqn:E4.
    { apply String.eqb_eq in E4. subst k. cbn [String.eqb Ascii.eqb Bool.eqb].
      apply lookup_put_same. }
    rewrite lookup_put_other by (now rewrite String.eqb_sym).
    destruct (k =? "port") eqn:E3.
    { apply String.eqb_eq in E3. subst k. cbn [String.eqb Ascii.eqb Bool.eqb].
      apply lookup_put_same. }
    rewrite lookup_put_other by (now rewrite String.eqb_sym).
    destruct (k =? "hostname") eqn:E2.
    { apply String.eqb_eq in E2. subst k. cbn [String.eqb Ascii.eqb Bool.eqb].
      apply lookup_put_same. }
    rewrite lookup_put_other by (now rewrite String.eqb_sym).
    destruct (k =? "protocol") eqn:E1.
    { apply String.eqb_eq in E1. subst k. apply lookup_put_same. }
    rewrite lookup_put_other by (now rewrite String.eqb_sym).
    reflexivity.
Qed.

(** C7, as stated, fails: capabilities that carry all four redirect
    fields, the port being 0, leave the connection parameters as they
    were; and so do capabilities whose four fields all hold something,
    the protocol not convertible to a string: the call raises before it
    writes. *)
Lemma redirect_to_port_zero_is_ignored :
  ((hasField "directConnectProtocol" (lookup "capabilities" port_zero_params)
    && hasField "directConnectHost" (lookup "capabilities" port_zero_params)
    && hasField "directConnectPort" (lookup "capabilities" port_zero_params)
    && hasField "directConnectPath" (lookup "capabilities" port_zero_params)) = true
   /\ member "directConnectPort" (lookup "capabilities" port_zero_params) = JNum 0
   /\ setupDirectConnect port_zero_params = (Ret tt, port_zero_params))
  /\ (carriesDirectConnect (lookup "capabilities" unprintable_redirect_params) = true
      /\ setupDirectConnect unprintable_redirect_params
         = (Throw TypeError, unprintable_redirect_params)).
Proof. repeat split; reflexivity. Qed.

Example setupDirectConnect_redirected :
  setupDirectConnect redirected_params
  = (Ret tt,
     [("hostname", JStr "node7.example.org"); ("port", JNum 443);
      ("capabilities", lookup "capabilities" redirected_params);
      ("protocol", JStr "https"); ("path", JStr "")]).
Proof. reflexivity. Qed.

Example setupDirectConnect_no_path :
  setupDirectConnect
    [("hostname", JStr "hub.example.org");
     ("capabilities",
      JObj [("directConnectProtocol", JStr "https");
            ("directConnectHost", JStr "node7.example.org");
            ("directConnectPort", JNum 443)])]
  = (Ret tt,
     [("hostname", JStr "hub.example.org");
      ("capabilities",
       JObj [("directConnectProtocol", JStr "https");
             ("directConnectHost", JStr "node7.example.org");
             ("directConnectPort", JNum 443)])]).
Proof. reflexivity. Qed.

(** ** Errors of a response body *)

Lemma CustomRequestError_unfold (body : JsVal) :
  truthy body = true ->
  truthy (errorObjOf body) = true ->
  CustomRequestError body
  = (message <- toStr (errorText (errorObjOf body)) ;;
     if truthy (member "error" (errorObjOf body))
     then Ret (mkError message (Some (member "error" (errorObjOf body))))
     else
       stale <- (if truthy (member "message" (errorObjOf body))
                 then includes (member "message" (errorObjOf body))
                               "stale element reference"
                 else Ret false) ;;
       if stale
       then Ret (mkError message (Some (JStr "stale element reference")))
       else Ret (mkError message None)).
Proof.
  intros Tb Te. unfold CustomRequestError.
  rewrite (get_member _ _ (truthy_not_missing _ Tb)). cbn [bind].
  unfold errorObjOf, present, errorText in *.
  set (eo := if truthy (member "value" body) then member "value" body else body) in *.
  rewrite !(get_member _ _ (truthy_not_missing _ Te)). cbn [bind].
  destruct (truthy (member "message" eo)); cbn [bind]; [reflexivity|].
  destruct (truthy (member "class" eo)); reflexivity.
Qed.

Lemma CustomRequestError_toError (body : JsVal) :
  is_object body = true ->
  truthy body = true ->
  (present (member "value" body) || present (member "error" body)) = true ->
  printable (errorText (errorObjOf body)) = true ->
  (present (member "error" (errorObjOf body))
   || stringOrAbsent (member "message" (errorObjOf body))) = true ->
  CustomRequestError body = Ret (toError body).
Proof.
  intros Ho Tb Hve Hp Hm.
  assert (Te : truthy (errorObjOf body) = true).
  { unfold errorObjOf, present.
    destruct (truthy (member "value" body)) eqn:E; assumption. }
  rewrite (CustomRequestError_unfold _ Tb Te).
  unfold toError. unfold present in *. rewrite Tb, Ho. cbn [negb orb].
  replace (negb (truthy (member "value" body)) && negb (truthy (member "error" body)))
    with false
    by (destruct (truthy (member "value" body)), (truthy (member "error" body));
        try reflexivity; discriminate).
  assert (Hbody : forall e : ErrorObject,
             match body with JStr s => mkError s None | _ => e end = e)
    by (intros e; destruct body; try reflexivity; discriminate).
  rewrite Hbody.
  change (if truthy (member "value" body) then member "value" body else body)
    with (errorObjOf body).
  set (eo := errorObjOf body) in *.
  assert (Hs : toStr (errorText eo)
               = Ret (if truthy (member "message" eo)
                      then shown (member "message" eo)
                      else if truthy (member "class" eo)
                           then shown (member "class" eo)
                           else "unknown error")).
  { destruct (printable_returns _ Hp) as [s Hs]. rewrite Hs.
    unfold errorText, shown in *.
    destruct (truthy (member "message" eo)); [now rewrite Hs|].
    destruct (truthy (member "class" eo)); [now rewrite Hs|].
    cbn in Hs. now injection Hs as <-. }
  rewrite Hs. cbn [bind]. unfold text.
  destruct (truthy (member "error" eo)) eqn:Er; cbn [orb] in Hm; [reflexivity|].
  destruct (member "message" eo) as [| |b|n|s|l|o] eqn:M;
    cbn [truthy stringOrAbsent negb] in *; cbn [bind]; try reflexivity;
    try discriminate.
  - destruct b; [discriminate|reflexivity].
  - destruct (n =? 0)%Z; [reflexivity|discriminate].
  - destruct (s =? "") eqn:Es; cbn [negb bind].
    + apply String.eqb_eq in Es. subst s. reflexivity.
    + cbn [includes bind].
      destruct (str_includes s "stale element reference"); reflexivity.
Qed.

(** Where the text of the error converts to a string and the error
    object names its error, or has a string (or nothing) for a message,
    the code builds the error the specification describes. *)
Lemma getErrorFromResponseBody_toError (body : JsVal) :
  printable (errorText (errorObjOf body)) = true ->
  (present (member "error" (errorObjOf body))
   || stringOrAbsent (member "message" (errorObjOf body))) = true ->
  getErrorFromResponseBody body = Ret (toError body).
Proof.
  intros Hp Hm. unfold getErrorFromResponseBody.
  destruct (truthy body) eqn:Tb; cbn [negb].
  - destruct (is_object body) eqn:Ho.
    + assert (Hn : nullish body = false) by now apply truthy_not_missing.
      rewrite (get_member _ _ Hn). cbn [bind].
      destruct (truthy (member "value" body)) eqn:Tv; cbn [bind].
      * destruct body; try discriminate;
          apply CustomRequestError_toError; auto; unfold present; now rewrite Tv.
      * rewrite (get_member _ _ Hn). cbn [bind].
        destruct (truthy (member "error" body)) eqn:Te; cbn [negb].
        -- destruct body; try discriminate;
             apply CustomRequestError_toError; auto; unfold present;
             now rewrite Tv, Te.
        -- unfold toError, present. rewrite Tb, Ho, Tv, Te.
           destruct body; try discriminate; reflexivity.
    + unfold toError, present. rewrite Tb, Ho.
      destruct body as [| |b|n|s|l|o]; try discriminate; try reflexivity.
      cbn [truthy] in Tb. destruct s; [discriminate|reflexivity].
  - unfold toError, present. rewrite Tb. reflexivity.
Qed.

(** C9: on a body whose error object has a number for a message and no
    [error] member the constructor raises, where the specification has it build
    an error with that message and no kind tag. *)
Theorem getErrorFromResponseBody_raises_on_number_message :
  getErrorFromResponseBody body_error_number = Throw TypeError.
Proof. reflexivity. Qed.

(** ** The command prototype *)

Section PrototypeProperties.

Context {Descriptor : Type}.
Variable commandName : Descriptor -> Res string.
Variable mergeDescriptor : option Descriptor -> Descriptor -> Descriptor.


Lemma overlay_app (o : option Descriptor) (l1 l2 : list Descriptor) :
  overlay mergeDescriptor o (l1 ++ l2) = overlay mergeDescriptor (overlay mergeDescriptor o l1) l2.
Proof. apply fold_left_app. Qed.

(** *** Merging, seen from one endpoint and method *)

Lemma find_mergeMethods (object source : Methods Descriptor) (m : string) :
  find m (mergeMethods mergeDescriptor object source)
  = overlay mergeDescriptor (find m object)
            (flat_map (fun '(m', d) => if m' =? m then [d] else []) source).
Proof.
  revert object. induction source as [|[m' d] source IH]; intros object.
  - reflexivity.
  - unfold mergeMethods in *. cbn [fold_left flat_map].
    rewrite IH. destruct (m' =? m) eqn:E.
    + apply String.eqb_eq in E. subst m'. now rewrite find_put_same.
    + apply String.eqb_neq in E. now rewrite find_put_other.
Qed.

Lemma declared_put_same (p : Protocol Descriptor) (e m : string)
      (methods : Methods Descriptor) :
  declared (put e methods p) e m = find m methods.
Proof. unfold declared. now rewrite find_put_same. Qed.

Lemma declared_put_other (p : Protocol Descriptor) (e e' m : string)
      (methods : Methods Descriptor) :
  e' <> e -> declared (put e' methods p) e m = declared p e m.
Proof. intros N. unfold declared. now rewrite find_put_other. Qed.

Lemma declared_mergeProtocol (object source : Protocol Descriptor)
      (e m : string) :
  declared (mergeProtocol mergeDescriptor object source) e m
  = overlay mergeDescriptor (declared object e m) (declarations source e m).
Proof.
  revert object. induction source as [|[e' methods] source IH]; intros object.
  - reflexivity.
  - unfold mergeProtocol in *. unfold declarations in *.
    cbn [fold_left flat_map]. rewrite IH. rewrite overlay_app. f_equal.
    destruct (e' =? e) eqn:E.
    + apply String.eqb_eq in E. subst e'.
      rewrite declared_put_same, find_mergeMethods.
      unfold declared, Protocol, Methods in *.
      destruct (find e object); reflexivity.
    + apply String.eqb_neq in E. now rewrite declared_put_other.
Qed.

Lemma declared_fold_mergeProtocol (layers : list (Protocol Descriptor))
      (object : Protocol Descriptor) (e m : string) :
  declared (fold_left (mergeProtocol mergeDescriptor) layers object) e m
  = overlay mergeDescriptor (declared object e m)
            (flat_map (fun layer => declarations layer e m) layers).
Proof.
  revert object. induction layers as [|layer layers IH]; intros object.
  - reflexivity.
  - cbn [fold_left flat_map]. rewrite IH, declared_mergeProtocol.
    now rewrite overlay_app.
Qed.

(** *** Registration, seen from one name *)

Lemma foldM_app {A B} (f : A -> B -> Res A) (l1 l2 : list B) (a : A) :
  foldM f (l1 ++ l2) a = (a' <- foldM f l1 a ;; foldM f l2 a').
Proof.
  revert a. induction l1 as [|x l1 IH]; intros a; cbn [foldM app bind];
    [reflexivity|].
  destruct (f a x); cbn [bind]; [apply IH|reflexivity].
Qed.

Lemma register_entries (grid : bool) (p : Protocol Descriptor) :
  register commandName grid p
  = foldM (registerOne commandName) (entries grid p) (mkPrototype [] None).
Proof.
  unfold register, entries. generalize (@mkPrototype Descriptor [] None).
  induction p as [|[endpoint methods] p IH]; intros prototype.
  - reflexivity.
  - cbn [foldM flat_map]. rewrite foldM_app.
    assert (E : foldM
                  (fun prototype0 '(method, commandData) =>
                     registerOne commandName prototype0
                       (command method endpoint commandData grid))
                  methods prototype
                = foldM (registerOne commandName)
                    (map (fun '(method, commandData) =>
                            command method endpoint commandData grid) methods)
                    prototype).
    { clear IH. revert prototype.
      induction methods as [|[method commandData] methods IHm]; intros prototype.
      - reflexivity.
      - cbn [foldM map].
        destruct (registerOne commandName prototype
                    (command method endpoint commandData grid));
          cbn [bind]; [apply IHm|reflexivity]. }
    rewrite E.
    destruct (foldM (registerOne commandName) _ prototype); cbn [bind];
      [apply IH|reflexivity].
Qed.

(** The own properties of the finished prototype: a name holds the last
    binding that declares it, the name [__proto__] never becomes one. *)
Lemma own_registered (l : list (Binding Descriptor))
      (start finish : Prototype Descriptor) (name : string) :
  foldM (registerOne commandName) l start = Ret finish ->
  find name (own finish)
  = if name =? "__proto__" then find name (own start)
    else fold_left
           (fun acc b => if declaresName commandName name b then Some b else acc)
           l (find name (own start)).
Proof.
  revert start. induction l as [|b l IH]; intros start H; cbn [foldM] in H.
  - injection H as <-. now destruct (name =? "__proto__").
  - unfold registerOne at 1 in H.
    destruct (commandName (bound_commandData b)) as [n|e] eqn:N;
      cbn [bind] in H; [|discriminate].
    cbn [fold_left]. unfold declaresName at 2. rewrite N.
    destruct (n =? "__proto__") eqn:P; cbn [bind] in H;
      rewrite (IH _ H); cbn [own].
    + apply String.eqb_eq in P. subst n.
      destruct (name =? "__proto__") eqn:Q; [reflexivity|].
      rewrite String.eqb_sym in Q. now rewrite Q.
    + destruct (name =? "__proto__") eqn:Q.
      * apply String.eqb_eq in Q. subst name.
        apply find_put_other. now apply String.eqb_neq.
      * f_equal. destruct (n =? name) eqn:E.
        -- apply String.eqb_eq in E. subst name. apply find_put_same.
        -- apply find_put_other. now apply String.eqb_neq.
Qed.

(** The loops end when no command raises on conversion. *)
Lemma foldM_registerOne_returns (l : list (Binding Descriptor))
      (start : Prototype Descriptor) :
  (forall d, exists n, commandName d = Ret n) ->
  exists finish, foldM (registerOne commandName) l start = Ret finish.
Proof.
  intros T. revert start. induction l as [|b l IH]; intros start; cbn [foldM].
  - eauto.
  - unfold registerOne at 1. destruct (T (bound_commandData b)) as [n ->].
    cbn [bind]. destruct (n =? "__proto__"); cbn [bind]; apply IH.
Qed.

(** *** What the call computes and what it writes *)

Lemma getPrototype_unfold (f : Flags) (s : Store Descriptor) :
  getPrototype commandName mergeDescriptor f s
  = (register commandName (isSeleniumStandalone f) (mergedTable mergeDescriptor f s),
     if isMobile f then s else write (baseName f) (mergedTable mergeDescriptor f s) s).
Proof.
  unfold getPrototype, mergedTable, baseLayer,
    extensionLayers, baseName, merge.
  destruct (isMobile f), (isW3C f); reflexivity.
Qed.

(** A mobile session merges into new objects and leaves every imported
    table as it was. *)
Lemma getPrototype_mobile_store (f : Flags) (s : Store Descriptor) :
  isMobile f = true -> snd (getPrototype commandName mergeDescriptor f s) = s.
Proof. intros H. rewrite getPrototype_unfold. cbn [snd]. now rewrite H. Qed.

(** Otherwise the table of the session's dialect is the object merged
    into; the other tables are left as they were. *)
Lemma getPrototype_store (f : Flags) (s : Store Descriptor) (n : ProtocolName) :
  isMobile f = false ->
  snd (getPrototype commandName mergeDescriptor f s) n
  = if ProtocolName_eqb n (baseName f) then mergedTable mergeDescriptor f s else s n.
Proof.
  intros H. rewrite getPrototype_unfold. cbn [snd]. now rewrite H.
Qed.

(** The merged table, seen from one endpoint and method: the base
    layer's description with the description of each later layer merged
    over it in turn. *)
Lemma mergedTable_overlay (f : Flags) (s : Store Descriptor)
      (endpoint method : string) :
  declared (mergedTable mergeDescriptor f s) endpoint method
  = overlay mergeDescriptor (declared (baseLayer mergeDescriptor f s) endpoint method)
            (flat_map (fun layer => declarations layer endpoint method)
                      (extensionLayers mergeDescriptor f s)).
Proof. apply declared_fold_mergeProtocol. Qed.

(** The prototype, seen from one name. *)
Lemma getPrototype_registered (f : Flags) (s : Store Descriptor)
      (prototype : Prototype Descriptor) (name : string) :
  fst (getPrototype commandName mergeDescriptor f s) = Ret prototype ->
  find name (own prototype)
  = if name =? "__proto__" then None
    else lastNamed commandName name
           (entries (isSeleniumStandalone f) (mergedTable mergeDescriptor f s)).
Proof.
  rewrite getPrototype_unfold. cbn [fst]. rewrite register_entries.
  intros H. now rewrite (own_registered _ _ _ name H).
Qed.

End PrototypeProperties.

Section DeclaredCommands.

Context {Rest : Type}.
Variable mergeRest : option Rest -> Rest -> Rest.

(** Merged descriptions declare the command of the last one merged. *)
Lemma overlay_command (o : option (CommandDescriptor Rest))
      (ds : list (CommandDescriptor Rest)) :
  option_map its_command (overlay (mergeDeclared mergeRest) o ds)
  = match lastOf ds with
    | Some d => Some (its_command d)
    | None => option_map its_command o
    end.
Proof.
  induction ds as [|d ds _] using rev_ind; [reflexivity|].
  unfold overlay, lastOf. rewrite !fold_left_app. reflexivity.
Qed.

(** C3, as amended.  The table the prototype is built from is the base
    layer (the legacy table with the compliant one merged over it for a
    mobile session, else the compliant or the legacy table) with the
    mobile, browser-vendor, cloud-vendor and grid layers merged over it
    in that order.  A later layer overrides an earlier one where they
    collide on an endpoint and method: the description there is the
    earlier one with the later merged over it, and the command it
    declares is that of the last layer that lists the pair.  Under a
    command name the prototype holds the binding of the last endpoint
    and method, in the key order of the merged table, that declares the
    name; the name [__proto__] gets no key. *)
Theorem getPrototype_layers (f : Flags) (s : Store (CommandDescriptor Rest)) :
  (forall endpoint method,
      declared (mergedTable (mergeDeclared mergeRest) f s) endpoint method
      = overlay (mergeDeclared mergeRest)
          (declared (baseLayer (mergeDeclared mergeRest) f s) endpoint method)
          (flat_map (fun layer => declarations layer endpoint method)
                    (extensionLayers (mergeDeclared mergeRest) f s)))
  /\ (forall endpoint method,
         option_map its_command
           (declared (mergedTable (mergeDeclared mergeRest) f s) endpoint method)
         = match lastOf (flat_map (fun layer => declarations layer endpoint method)
                                  (extensionLayers (mergeDeclared mergeRest) f s))
           with
           | Some d => Some (its_command d)
           | None =>
               option_map its_command
                 (declared (baseLayer (mergeDeclared mergeRest) f s)
                           endpoint method)
           end)
  /\ exists prototype,
      fst (getPrototype declaredName (mergeDeclared mergeRest) f s) = Ret prototype
      /\ forall name,
        find name (own prototype)
        = if name =? "__proto__" then None
          else lastNamed declaredName name
                 (entries (isSeleniumStandalone f)
                          (mergedTable (mergeDeclared mergeRest) f s)).
Proof.
  split; [|split].
  - intros endpoint method. apply mergedTable_overlay.
  - intros endpoint method. rewrite mergedTable_overlay. apply overlay_command.
  - destruct (foldM_registerOne_returns declaredName
                (entries (isSeleniumStandalone f)
                         (mergedTable (mergeDeclared mergeRest) f s))
                (mkPrototype [] None)) as [prototype H].
    { intros d. now exists (its_command d). }
    assert (E : fst (getPrototype declaredName (mergeDeclared mergeRest) f s)
                = Ret prototype).
    { rewrite getPrototype_unfold. cbn [fst]. now rewrite register_entries. }
    exists prototype. split; [exact E|].
    intros name. now apply getPrototype_registered.
Qed.

End DeclaredCommands.

(** C3, as stated, fails: the browser-vendor layer, merged last, declares
    [getTitle] at an endpoint the compliant table has already, and the
    prototype keeps the binding of the compliant table's own endpoint,
    which comes later in the merged table.  And a command named
    [__proto__], whichever layer declares it, gets no key at all. *)
Lemma last_merged_layer_loses :
  (registered "getTitle"
     (fst (getPrototype commandOf mergeFlat chrome_flags sample_tables))
   = Some (command "GET" "/session/:sessionId/title" (named "getTitle") false)
   /\ lastMergedWins commandOf "getTitle" false
        (baseLayer mergeFlat chrome_flags sample_tables
         :: extensionLayers mergeFlat chrome_flags sample_tables)
      = Some (command "GET" "/session/:sessionId/url" (named "getTitle") false)
   /\ registered "getTitle"
        (fst (getPrototype commandOf mergeFlat chrome_flags sample_tables))
      <> lastMergedWins commandOf "getTitle" false
           (baseLayer mergeFlat chrome_flags sample_tables
            :: extensionLayers mergeFlat chrome_flags sample_tables))
  /\ (fst (getPrototype commandOf mergeFlat plain_flags proto_tables)
      = Ret (mkPrototype []
               (Some (command "GET" "/session/:sessionId/url"
                              (named "__proto__") false)))
      /\ lastMergedWins commandOf "__proto__" false
           (baseLayer mergeFlat plain_flags proto_tables
            :: extensionLayers mergeFlat plain_flags proto_tables)
         = Some (command "GET" "/session/:sessionId/url" (named "__proto__") false)).
Proof. repeat split; try reflexivity. vm_compute. discriminate. Qed.

Example getPrototype_mobile_sample (n : ProtocolName) :
  snd (getPrototype commandOf mergeFlat mobile_flags sample_tables) n
  = sample_tables n.
Proof. destruct n; reflexivity. Qed.

(** C5: building the prototype of a compliant desktop Chrome session
    merges the vendor table into the imported compliant table itself,
    which does not keep its value, where the specification has every table equal
    to its value before the call. *)
Theorem getPrototype_writes_imported_table :
  snd (getPrototype commandOf mergeFlat chrome_flags sample_tables) WebDriverProtocol
  = [("/session/:sessionId/url",
      [("POST", named "navigateTo"); ("GET", named "getTitle")]);
     ("/session/:sessionId/title", [("GET", named "getTitle")])]
  /\ snd (getPrototype commandOf mergeFlat chrome_flags sample_tables) WebDriverProtocol
     <> sample_tables WebDriverProtocol.
Proof. split; [reflexivity|]. vm_compute. discriminate. Qed.

(* ===================================================================== *)
(** * Further properties *)
(* ===================================================================== *)

(** ** The classifier *)

(** X1.  The test for status code 200 decides nothing: every status code
    other than 404 classifies a body as 200 does. *)
Theorem statusCode_matters_only_for_404 (statusCode body : JsVal) :
  is_num statusCode 404 = false ->
  isSuccessfulResponse statusCode body = isSuccessfulResponse (JNum 200) body.
Proof.
  intros H. unfold isSuccessfulResponse.
  destruct (negb (truthy body)); [reflexivity|].
  destruct (get "value" body) as [value|e]; cbn [bind]; [|reflexivity].
  destruct (is_undefined value); [reflexivity|].
  destruct (get "status" body) as [status|e]; cbn [bind]; [|reflexivity].
  destruct (elementNotFound status value) as [lazy|e]; cbn [bind]; [|reflexivity].
  destruct lazy; [reflexivity|].
  destruct (truthy status && negb (is_num status 0)); [reflexivity|].
  destruct (hasErrorResponse value) as [err|e]; cbn [bind]; [|reflexivity].
  rewrite H. cbn [is_num Z.eqb Pos.eqb andb bind].
  destruct (is_num statusCode 200), (truthy err); reflexivity.
Qed.

Lemma statusCode_matters_only_for_404_witness :
  is_num (JNum 500) 404 = false
  /\ isSuccessfulResponse (JNum 500) (JObj [("value", JObj [])])
     = isSuccessfulResponse (JNum 200) (JObj [("value", JObj [])]).
Proof.
  split; [reflexivity|].
  apply (statusCode_matters_only_for_404 (JNum 500) (JObj [("value", JObj [])])).
  reflexivity.
Defined.

(** X2.  The classifier raises, with a [TypeError], exactly on two kinds
    of bodies: those of legacy status 7 whose [value.message] holds
    something that is not a string, and those that have a [value] and a
    legacy status that does not convert to a string; on every other body
    it returns a boolean. *)
Theorem isSuccessfulResponse_raises_exactly (statusCode body : JsVal) :
  (isSuccessfulResponse statusCode body = Throw TypeError
   <-> classifierRaises body = true)
  /\ (classifierRaises body = false
      <-> exists b, isSuccessfulResponse statusCode body = Ret b).
Proof.
  destruct (classifierRaises body) eqn:M.
  - pose proof (classifierRaises_true statusCode body M) as R.
    split; split; intros H; auto; try discriminate.
    destruct H as [b H]. rewrite R in H. discriminate.
  - pose proof (isSuccessfulResponse_table statusCode body M) as R.
    split; split; intros H; auto.
    + rewrite R in H. discriminate.
    + discriminate.
    + eauto.
Qed.

Lemma classify_decided (statusCode body : JsVal) (b : bool) :
  isSuccessfulResponse statusCode body = Ret b ->
  succeeded (classify statusCode body) = b.
Proof.
  intros H. destruct (classifierRaises body) eqn:M.
  - rewrite (classifierRaises_true _ _ M) in H. discriminate.
  - rewrite (isSuccessfulResponse_table _ _ M) in H. now injection H.
Qed.

(** X3.  A body that carries an error indicator is reported successful
    only in the two lazy-loading cases: legacy status 7 with an
    element-missing message, or status code 404 with the error
    "no such element". *)
Theorem success_despite_error_indicator (statusCode body : JsVal) :
  isSuccessfulResponse statusCode body = Ret true ->
  error_indicator body = true ->
  (is_num (member "status" body) 7
   && element_missing_message (member "message" (member "value" body))) = true
  \/ (is_num statusCode 404
      && is_str (member "error" (member "value" body)) "no such element") = true.
Proof.
  intros H E. apply classify_decided in H. unfold classify in H.
  rewrite E in H. cbn [negb] in H. rewrite andb_false_r in H.
  destruct (body_missing body || no_value_field body); [discriminate|].
  destruct (is_num (member "status" body) 7
            && element_missing_message (member "message" (member "value" body)));
    [now left|].
  destruct (present (member "status" body) && negb (is_num (member "status" body) 0));
    [discriminate|].
  destruct (is_num statusCode 404
            && is_str (member "error" (member "value" body)) "no such element");
    [now right|discriminate].
Qed.

Lemma success_despite_error_indicator_witness :
  (is_num (member "status" body_404_tolerated) 7
   && element_missing_message
        (member "message" (member "value" body_404_tolerated))) = true
  \/ (is_num (JNum 404) 404
      && is_str (member "error" (member "value" body_404_tolerated))
                "no such element") = true.
Proof.
  apply (success_despite_error_indicator (JNum 404) body_404_tolerated);
    reflexivity.
Defined.

(** X4.  A body is reported failed only for one of three reasons: it has
    no [value], its legacy status holds something other than zero, or it
    carries an error indicator. *)
Theorem failure_has_a_reason (statusCode body : JsVal) :
  isSuccessfulResponse statusCode body = Ret false ->
  (body_missing body || no_value_field body) = true
  \/ (truthy (member "status" body)
      && negb (is_num (member "status" body) 0)) = true
  \/ error_indicator body = true.
Proof.
  intros H. apply classify_decided in H. unfold classify, present in H.
  destruct (body_missing body || no_value_field body); [now left|].
  destruct (is_num (member "status" body) 7
            && element_missing_message (member "message" (member "value" body)));
    [discriminate|].
  destruct (truthy (member "status" body) && negb (is_num (member "status" body) 0));
    [right; now left|].
  destruct (error_indicator body); [right; now right|].
  rewrite andb_true_r in H.
  destruct (is_num statusCode 200); [discriminate|].
  destruct (is_num statusCode 404
            && is_str (member "error" (member "value" body)) "no such element");
    discriminate.
Qed.

Lemma failure_has_a_reason_witness :
  (body_missing JUndefined || no_value_field JUndefined) = true
  \/ (truthy (member "status" JUndefined)
      && negb (is_num (member "status" JUndefined) 0)) = true
  \/ error_indicator JUndefined = true.
Proof.
  apply (failure_has_a_reason (JNum 200) JUndefined). reflexivity.
Defined.

(** ** Capabilities and the session response *)

(** X5.  Building the two forms never raises, and the legacy form is
    always the [alwaysMatch] member of the structured form. *)
Theorem capabilityForms_agree (capabilities : JsVal) :
  exists w3cCaps jsonwpCaps,
    capabilityForms capabilities = Ret (w3cCaps, jsonwpCaps)
    /\ member "alwaysMatch" w3cCaps = jsonwpCaps.
Proof.
  unfold capabilityForms.
  destruct (truthy capabilities) eqn:Tc.
  - rewrite (get_member _ _ (truthy_not_missing _ Tc)). cbn [bind].
    destruct (truthy (member "alwaysMatch" capabilities)); cbn [bind];
      eexists; eexists; split; reflexivity.
  - cbn [bind]. rewrite Tc. eexists; eexists; split; reflexivity.
Qed.

(** X6.  The structured form that is saved for a later session request
    gives the same two forms when it is handed in again, as long as the
    legacy form holds something. *)
Theorem capabilityForms_again (capabilities w3cCaps jsonwpCaps : JsVal) :
  capabilityForms capabilities = Ret (w3cCaps, jsonwpCaps) ->
  truthy jsonwpCaps = true ->
  capabilityForms w3cCaps = Ret (w3cCaps, jsonwpCaps).
Proof.
  unfold capabilityForms at 1. intros H T.
  destruct (truthy capabilities) eqn:Tc.
  - rewrite (get_member _ _ (truthy_not_missing _ Tc)) in H. cbn [bind] in H.
    destruct (truthy (member "alwaysMatch" capabilities)) eqn:Ta;
      cbn [bind] in H; injection H as <- <-.
    + unfold capabilityForms. rewrite Tc.
      rewrite (get_member _ _ (truthy_not_missing _ Tc)). cbn [bind].
      now rewrite Ta.
    + unfold capabilityForms. cbn. unfold lookup. cbn. now rewrite Tc.
  - cbn [bind] in H. rewrite Tc in H. injection H as <- <-.
    rewrite Tc in T. discriminate.
Qed.

Lemma capabilityForms_again_witness :
  capabilityForms (JObj [("alwaysMatch", JObj [("browserName", JStr "chrome")]);
                         ("firstMatch", JArr [JObj []])])
  = Ret (JObj [("alwaysMatch", JObj [("browserName", JStr "chrome")]);
               ("firstMatch", JArr [JObj []])],
         JObj [("browserName", JStr "chrome")]).
Proof.
  apply (capabilityForms_again (JObj [("browserName", JStr "chrome")]));
    reflexivity.
Defined.

Lemma sessionIdOf_nullish (response : JsVal) :
  nullish (member "value" response) = true ->
  sessionIdOf response = Throw TypeError
  /\ capabilitiesOf response = Throw TypeError.
Proof.
  intros H. unfold sessionIdOf, capabilitiesOf.
  destruct response as [| | | | | |o]; try (split; reflexivity).
  cbn [get bind]. cbn [member] in H.
  destruct (lookup "value" o); try discriminate; split; reflexivity.
Qed.

(** X7.  Reading the session id or the capabilities out of a response
    raises, with a [TypeError], exactly when the response has no [value]
    or a [null] one. *)
Theorem extraction_raises_exactly (response : JsVal) :
  (sessionIdOf response = Throw TypeError
   <-> nullish (member "value" response) = true)
  /\ (capabilitiesOf response = Throw TypeError
      <-> nullish (member "value" response) = true).
Proof.
  destruct (nullish (member "value" response)) eqn:N.
  - destruct (sessionIdOf_nullish _ N) as [S C]. split; split; auto.
  - split; split; intros H; try discriminate.
    + rewrite (sessionIdOf_value _ N) in H. discriminate.
    + rewrite (capabilitiesOf_value _ N) in H. discriminate.
Qed.

(** X8.  A response that the classifier accepts has a [value]; reading
    the session id out of it raises only when that [value] is [null]. *)
Theorem accepted_response_extraction (statusCode response : JsVal) :
  isSuccessfulResponse statusCode response = Ret true ->
  sessionIdOf response = Throw TypeError ->
  member "value" response = JNull.
Proof.
  intros A S.
  assert (N : nullish (member "value" response) = true).
  { destruct (nullish (member "value" response)) eqn:N; [reflexivity|].
    rewrite (sessionIdOf_value _ N) in S. discriminate. }
  apply classify_decided in A. unfold classify, no_value_field in A.
  destruct (member "value" response); try discriminate; [|reflexivity].
  cbn [is_undefined] in A. rewrite orb_true_r in A. discriminate.
Qed.

Lemma accepted_response_extraction_witness :
  member "value" null_value_response = JNull.
Proof.
  apply (accepted_response_extraction (JNum 200) null_value_response);
    reflexivity.
Defined.

(** ** Session start *)

(** X9.  When the transport resolves with a response: if the response
    has no [value] or a [null] one, the call raises a [TypeError] and
    leaves [params] as it was; otherwise it returns the session id
    ([value.sessionId], else [sessionId]) and [params] ends with the two
    requested forms and the capabilities ([value.capabilities], else
    [value]) written to it, in that order. *)
Theorem startWebDriverSession_resolved
        (makeRequest : string -> string -> JsVal -> Obj -> JsVal + JsVal)
        (params : Obj) (w3cCaps jsonwpCaps response : JsVal) :
  capabilityForms (lookup "capabilities" params) = Ret (w3cCaps, jsonwpCaps) ->
  makeRequest "POST" "/session" (sessionRequestBody w3cCaps jsonwpCaps) params
  = inr response ->
  startWebDriverSession makeRequest params
  = if nullish (member "value" response)
    then (Throw TypeError, params)
    else
      (Ret (if truthy (member "sessionId" (member "value" response))
            then member "sessionId" (member "value" response)
            else member "sessionId" response),
       put "capabilities"
           (if truthy (member "capabilities" (member "value" response))
            then member "capabilities" (member "value" response)
            else member "value" response)
           (put "requestedCapabilities"
                (JObj [("w3cCaps", w3cCaps); ("jsonwpCaps", jsonwpCaps)])
                params)).
Proof.
  intros F M. unfold startWebDriverSession. rewrite F, M.
  destruct (nullish (member "value" response)) eqn:N.
  - destruct (sessionIdOf_nullish _ N) as [S _]. now rewrite S.
  - rewrite (sessionIdOf_value _ N), (capabilitiesOf_value _ N). reflexivity.
Qed.

Lemma startWebDriverSession_resolved_witness :
  startWebDriverSession (fun _ _ _ _ => inr chrome_response) chromedriver_params
  = (Ret (JStr "abc123"),
     put "capabilities" (JObj [("browserName", JStr "chrome")])
       (put "requestedCapabilities"
            (JObj [("w3cCaps",
                    JObj [("alwaysMatch", JObj [("browserName", JStr "chrome")]);
                          ("firstMatch", JArr [JObj []])]);
                   ("jsonwpCaps", JObj [("browserName", JStr "chrome")])])
            chromedriver_params)).
Proof.
  apply (startWebDriverSession_resolved
           (fun _ _ _ _ => inr chrome_response) chromedriver_params
           (JObj [("alwaysMatch", JObj [("browserName", JStr "chrome")]);
                  ("firstMatch", JArr [JObj []])])
           (JObj [("browserName", JStr "chrome")])
           chrome_response); reflexivity.
Defined.

(** X10.  Whatever the transport does and however the call ends, the
    only members of [params] it can change are [capabilities] and
    [requestedCapabilities]: every other member reads as before. *)
Theorem startWebDriverSession_frame
        (makeRequest : string -> string -> JsVal -> Obj -> JsVal + JsVal)
        (params : Obj) (k : string) :
  (k =? "capabilities") = false ->
  (k =? "requestedCapabilities") = false ->
  lookup k (snd (startWebDriverSession makeRequest params)) = lookup k params.
Proof.
  intros K1 K2. rewrite String.eqb_sym in K1, K2.
  unfold startWebDriverSession.
  destruct (capabilityForms (lookup "capabilities" params)) as [[w j]|e];
    [|reflexivity].
  destruct (makeRequest "POST" "/session" (sessionRequestBody w j) params)
    as [err|response].
  - destruct (getSessionError err params) as [message|e]; [|reflexivity].
    destruct (toStr message); reflexivity.
  - destruct (sessionIdOf response); [|reflexivity].
    destruct (capabilitiesOf response); cbn [snd].
    + now rewrite !lookup_put_other.
    + now rewrite lookup_put_other.
Qed.

Lemma startWebDriverSession_frame_witness :
  lookup "port"
         (snd (startWebDriverSession (fun _ _ _ _ => inr chrome_response)
                                     chromedriver_params))
  = lookup "port" chromedriver_params.
Proof.
  apply (startWebDriverSession_frame
           (fun _ _ _ _ => inr chrome_response) chromedriver_params "port");
    reflexivity.
Defined.

(** ** Direct connect *)

(** X11.  The rewrite raises, with a [TypeError], exactly in two cases:
    [params.capabilities] is [undefined] or [null], or the capabilities
    hold a redirect that fires and one of its four values does not
    convert to a string for the log line; in every other case, a
    primitive for capabilities included, it returns. *)
Theorem setupDirectConnect_raises_exactly (params : Obj) :
  fst (setupDirectConnect params)
  = if nullish (lookup "capabilities" params) then Throw TypeError
    else if carriesDirectConnect (lookup "capabilities" params)
            && negb (printableRedirect (lookup "capabilities" params))
         then Throw TypeError
         else Ret tt.
Proof.
  unfold setupDirectConnect.
  destruct (nullish (lookup "capabilities" params)) eqn:N.
  - destruct (lookup "capabilities" params); try discriminate; reflexivity.
  - rewrite !(get_member _ _ N). cbn [bind].
    unfold directConnectReady, carriesDirectConnect, printableRedirect, present.
    set (c := lookup "capabilities" params).
    destruct (truthy (member "directConnectProtocol" c)
              && truthy (member "directConnectHost" c)
              && truthy (member "directConnectPort" c)
              && (truthy (member "directConnectPath" c)
                  || is_str (member "directConnectPath" c) ""));
      [|reflexivity].
    cbn [andb].
    pose proof (directConnectLine_cases
                  (member "directConnectProtocol" c) (member "directConnectHost" c)
                  (member "directConnectPort" c) (member "directConnectPath" c)) as L.
    destruct (printable (member "directConnectProtocol" c)
              && printable (member "directConnectHost" c)
              && printable (member "directConnectPort" c)
              && printable (member "directConnectPath" c)); cbn [negb].
    + destruct L as [line ->]. reflexivity.
    + now rewrite L.
Qed.

Lemma put_present {A} (k : string) (v : A) (o : list (string * A)) :
  find k o = Some v -> put k v o = o.
Proof.
  induction o as [|[k' v'] o IH]; cbn [find put]; [discriminate|].
  destruct (k' =? k) eqn:E.
  - intros H. injection H as ->. reflexivity.
  - intros H. now rewrite IH.
Qed.

(** X12.  The rewrite is idempotent: applied to the [params] it has
    left, it ends the same way and leaves them as they are. *)
Theorem setupDirectConnect_idempotent (params : Obj) :
  setupDirectConnect (snd (setupDirectConnect params))
  = (fst (setupDirectConnect params), snd (setupDirectConnect params)).
Proof.
  unfold setupDirectConnect at 2 3 4.
  destruct (nullish (lookup "capabilities" params)) eqn:N.
  - destruct (lookup "capabilities" params) eqn:C; try discriminate;
      cbn [get bind fst snd]; unfold setupDirectConnect; rewrite C; reflexivity.
  - rewrite !(get_member _ _ N). cbn [bind].
    set (c := lookup "capabilities" params) in *.
    destruct (directConnectReady (member "directConnectProtocol" c)
                (member "directConnectHost" c) (member "directConnectPort" c)
                (member "directConnectPath" c)) eqn:R; cbn [fst snd];
      [destruct (directConnectLine (member "directConnectProtocol" c)
                   (member "directConnectHost" c) (member "directConnectPort" c)
                   (member "directConnectPath" c)) as [line|e] eqn:L;
       cbn [fst snd]|].
    + set (p' := put "path" (member "directConnectPath" c)
                   (put "port" (member "directConnectPort" c)
                      (put "hostname" (member "directConnectHost" c)
                         (put "protocol" (member "directConnectProtocol" c)
                            params)))).
      assert (C' : lookup "capabilities" p' = c).
      { unfold p'. now rewrite !lookup_put_other by reflexivity. }
      unfold setupDirectConnect. rewrite C'.
      rewrite !(get_member _ _ N). cbn [bind]. rewrite R, L.
      assert (F1 : find "protocol" p' = Some (member "directConnectProtocol" c)).
      { unfold p'. rewrite !find_put_other by discriminate. apply find_put_same. }
      assert (F2 : find "hostname" p' = Some (member "directConnectHost" c)).
      { unfold p'. rewrite !find_put_other by discriminate. apply find_put_same. }
      assert (F3 : find "port" p' = Some (member "directConnectPort" c)).
      { unfold p'. rewrite !find_put_other by discriminate. apply find_put_same. }
      assert (F4 : find "path" p' = Some (member "directConnectPath" c)).
      { unfold p'. apply find_put_same. }
      rewrite (put_present _ _ _ F1), (put_present _ _ _ F2),
        (put_present _ _ _ F3), (put_present _ _ _ F4).
      reflexivity.
    + unfold setupDirectConnect. fold c.
      rewrite !(get_member _ _ N). cbn [bind]. now rewrite R, L.
    + unfold setupDirectConnect. fold c.
      rewrite !(get_member _ _ N). cbn [bind]. now rewrite R.
Qed.

(** ** Transport errors *)

(** X13.  The connection parameters enter the message only for a refused
    connection: for any other error the result is the same whatever the
    parameters are. *)
Theorem getSessionError_params_only_when_refused (err : JsVal) (p1 p2 : Obj) :
  is_str (member "code" err) "ECONNREFUSED" = false ->
  getSessionError err p1 = getSessionError err p2.
Proof.
  intros H. unfold getSessionError.
  destruct (nullish err) eqn:N.
  - destruct err; try discriminate; reflexivity.
  - rewrite !(get_member _ _ N). cbn [bind]. rewrite H. reflexivity.
Qed.

Lemma getSessionError_params_only_when_refused_witness :
  getSessionError (JObj [("message", JStr "unhandled request")]) chromedriver_params
  = getSessionError (JObj [("message", JStr "unhandled request")]) redirected_params.
Proof.
  apply (getSessionError_params_only_when_refused
           (JObj [("message", JStr "unhandled request")])).
  reflexivity.
Defined.

Lemma some_includes_array (l : list JsVal) (ms : list string) :
  some (fun m => includes (JArr l) m) ms
  = Ret (existsb (fun m => existsb (fun x => is_str x m) l) ms).
Proof.
  induction ms as [|m ms IH]; cbn [some includes bind existsb]; [reflexivity|].
  destruct (existsb (fun x => is_str x m) l); cbn [orb]; [reflexivity|exact IH].
Qed.

(** X14.  [getSessionError] raises, with a [TypeError], exactly when the
    error is [undefined] or [null]; or the connection was refused and one
    of the four connection parameters does not convert to a string; or
    the connection was not refused and the message holds something that
    is neither a string nor an array, or is an array that reaches the
    rule of the illegal capabilities, matches it and cannot be joined
    into a string.  In every other case it returns a value. *)
Theorem getSessionError_raises_exactly (err : JsVal) (params : Obj) :
  if sessionErrorRaises err params
  then getSessionError err params = Throw TypeError
  else exists v, getSessionError err params = Ret v.
Proof.
  unfold sessionErrorRaises, getSessionError.
  destruct (nullish err) eqn:N; cbn [orb].
  - destruct err; try discriminate; reflexivity.
  - rewrite !(get_member _ _ N). cbn [bind].
    destruct (is_str (member "code" err) "ECONNREFUSED").
    { unfold msg_refused. destruct (printableParams params) eqn:P; cbn [negb].
      - destruct (target_printable _ P) as [s ->]. cbn [bind]. eauto.
      - now rewrite (target_unprintable _ P). }
    unfold noIncludes, illegalList.
    destruct (member "message" err) as [| |b|n|s|l|o];
      cbn [is_str truthy negb andb orb bind]; eauto.
    + destruct b; cbn [negb andb orb includes bind]; eauto.
    + destruct (n =? 0)%Z; cbn [negb andb orb includes bind]; eauto.
    + rewrite andb_false_r, some_includes. cbn [includes bind orb toStr].
      destruct (s =? "unhandled request"); [eauto|].
      destruct (s =? ""); cbn [negb andb bind]; [eauto|].
      destruct (str_includes s "Whoops! The URL specified routes to this help page.");
        [eauto|].
      destruct (existsb (str_includes s) BROWSER_DRIVER_ERRORS); [eauto|].
      destruct (str_includes s "Bad Request - Invalid Hostname"); cbn [bind].
      * destruct (str_includes s "HTTP Error 400"); [eauto|].
        destruct (str_includes s "Illegal key values seen in w3c capabilities");
          cbn [bind]; [eauto|].
        destruct (s =? "Response has empty body"); eauto.
      * destruct (str_includes s "Illegal key values seen in w3c capabilities");
          cbn [bind]; [eauto|].
        destruct (s =? "Response has empty body"); eauto.
    + rewrite some_includes_array. cbn [includes bind andb orb].
      destruct (existsb
                  (fun x => is_str x "Whoops! The URL specified routes to this help page.")
                  l); cbn [negb andb]; [eauto|].
      destruct (existsb (fun m => existsb (fun x => is_str x m) l)
                        BROWSER_DRIVER_ERRORS); cbn [negb andb]; [eauto|].
      assert (J : if negb (printable (JArr l))
                  then (printed <- toStr (JArr l) ;;
                        Ret (JStr (printed ++ w3cCapMessage))) = Throw TypeError
                  else exists v, (printed <- toStr (JArr l) ;;
                                  Ret (JStr (printed ++ w3cCapMessage))) = Ret v).
      { destruct (printable (JArr l)) eqn:P; cbn [negb].
        - destruct (printable_returns _ P) as [s ->]. cbn [bind]. eauto.
        - now rewrite (unprintable_raises _ P). }
      destruct (existsb (fun x => is_str x "Bad Request - Invalid Hostname") l);
        cbn [bind andb negb].
      * destruct (existsb (fun x => is_str x "HTTP Error 400") l);
          cbn [negb andb]; [eauto|].
        destruct (existsb
                    (fun x => is_str x "Illegal key values seen in w3c capabilities")
                    l); cbn [andb]; [exact J|eauto].
      * destruct (existsb
                    (fun x => is_str x "Illegal key values seen in w3c capabilities")
                    l); cbn [andb]; [exact J|eauto].
Qed.

Lemma append_not_empty (a b : string) : b <> "" -> a ++ b <> "".
Proof. destruct a; cbn; [auto|discriminate]. Qed.

(** X15.  For an [Error] object, when the guidance can be built (the
    connection was not refused, or the four connection parameters convert
    to strings), the message returned is a string that is never empty. *)
Theorem getSessionError_never_empty (err : JsVal) (params : Obj) :
  isErrorValue err = true ->
  is_str (member "code" err) "ECONNREFUSED" = false
  \/ printableParams params = true ->
  exists s, getSessionError err params = Ret (JStr s) /\ s <> "".
Proof.
  intros H G. rewrite (getSessionError_rules err params H).
  unfold toDiagnostic, diagnostic_rules, first_match.
  destruct (is_str (member "code" err) "ECONNREFUSED").
  { destruct G as [G|G]; [discriminate|]. unfold msg_refused.
    destruct (target_printable _ G) as [s ->]. cbn [bind].
    eexists. split; [reflexivity|]. discriminate. }
  destruct (text err =? "unhandled request");
    [eexists; split; [reflexivity|discriminate]|].
  destruct (text err =? "") eqn:E;
    [eexists; split; [reflexivity|discriminate]|].
  destruct (str_includes (text err) _);
    [eexists; split; [reflexivity|discriminate]|].
  destruct (existsb _ _); [eexists; split; [reflexivity|discriminate]|].
  destruct (_ && _); [eexists; split; [reflexivity|discriminate]|].
  destruct (str_includes (text err) _).
  - eexists. split; [reflexivity|].
    apply append_not_empty. intros W. vm_compute in W. discriminate.
  - destruct (text err =? "Response has empty body").
    + eexists. split; [reflexivity|]. intros W. vm_compute in W. discriminate.
    + eexists. split; [reflexivity|]. now apply String.eqb_neq.
Qed.

Lemma getSessionError_never_empty_witness :
  exists s, getSessionError refused chromedriver_params = Ret (JStr s) /\ s <> "".
Proof.
  apply (getSessionError_never_empty refused chromedriver_params);
    [reflexivity|right; reflexivity].
Defined.

Lemma CustomRequestError_outcome (body : JsVal) :
  truthy body = true ->
  truthy (errorObjOf body) = true ->
  if negb (printable (errorText (errorObjOf body)))
     || (negb (truthy (member "error" (errorObjOf body)))
         && noIncludes (member "message" (errorObjOf body)))
  then CustomRequestError body = Throw TypeError
  else exists e, CustomRequestError body = Ret e.
Proof.
  intros Tb Te. rewrite (CustomRequestError_unfold _ Tb Te).
  set (eo := errorObjOf body) in *.
  destruct (printable (errorText eo)) eqn:P; cbn [negb orb];
    [|now rewrite (unprintable_raises _ P)].
  destruct (printable_returns _ P) as [shown_text ->]. cbn [bind].
  unfold noIncludes.
  destruct (truthy (member "error" eo)) eqn:Er; cbn [negb andb]; [eauto|].
  destruct (member "message" eo) as [| |b|n|s|l|o];
    cbn [truthy negb andb bind includes]; eauto.
  - destruct b; cbn [bind andb]; eauto.
  - destruct (n =? 0)%Z; cbn [negb bind andb]; eauto.
  - rewrite andb_false_r.
    destruct (s =? ""); cbn [negb bind]; [eauto|].
    destruct (str_includes s "stale element reference"); eauto.
  - destruct (existsb (fun x => is_str x "stale element reference") l); eauto.
Qed.

(** X16.  [getErrorFromResponseBody] raises, with a [TypeError], exactly
    when it builds a [CustomRequestError] and either the text for the
    [Error] constructor ([message], else [class], else "unknown error")
    does not convert to a string, or the error object has no [error] and
    its [message] holds something that is neither a string nor an array;
    on every other body it returns an error object. *)
Theorem getErrorFromResponseBody_raises_exactly (body : JsVal) :
  if errorRaises body
  then getErrorFromResponseBody body = Throw TypeError
  else exists e, getErrorFromResponseBody body = Ret e.
Proof.
  unfold errorRaises, getErrorFromResponseBody.
  destruct (truthy body) eqn:Tb; cbn [negb andb]; [|eauto].
  destruct (is_object body) eqn:Ho; cbn [andb].
  - assert (Hn : nullish body = false) by now apply truthy_not_missing.
    assert (Hb : forall (X : Res ErrorObject) (f : string -> Res ErrorObject),
               match body with JStr s => f s | _ => X end = X)
      by (intros X f; destruct body; try reflexivity; discriminate).
    rewrite Hb. rewrite !(get_member _ _ Hn). cbn [bind].
    pose proof (CustomRequestError_outcome body Tb) as C.
    destruct (truthy (member "value" body)) eqn:Tv; cbn [bind orb andb].
    + apply C. unfold errorObjOf, present. now rewrite Tv.
    + destruct (truthy (member "error" body)) eqn:Te; cbn [negb andb].
      * apply C. unfold errorObjOf, present. now rewrite Tv.
      * eauto.
  - destruct body; try discriminate; cbn [negb]; eauto.
    destruct (negb (length s =? 0)%nat); eauto.
Qed.

(** X17.  A body that holds nothing gives the error "Response has empty
    body", and that error, handed to [getSessionError], gives the advice
    on host, port and grid: the two functions agree on the literal.  An
    error object that [getErrorFromResponseBody] returns never makes
    [getSessionError] raise. *)
Theorem empty_body_error_is_recognised (body : JsVal) (params : Obj) :
  (truthy body = false ->
   exists e, getErrorFromResponseBody body = Ret e
             /\ getSessionError (errorValue e) params = Ret (JStr msg_empty_body))
  /\ (forall e, getErrorFromResponseBody body = Ret e ->
                exists s, getSessionError (errorValue e) params = Ret (JStr s)).
Proof.
  split.
  - intros Tb. unfold getErrorFromResponseBody. rewrite Tb. cbn [negb].
    eexists. split; reflexivity.
  - intros e _. rewrite getSessionError_rules by reflexivity.
    destruct (toDiagnostic_returns (errorValue e) params) as [advice ->];
      [left; destruct e as [m [n|]]; reflexivity|].
    cbn [bind]. eauto.
Qed.

Lemma empty_body_error_is_recognised_witness :
  exists e, getErrorFromResponseBody JNull = Ret e
            /\ getSessionError (errorValue e) chromedriver_params
               = Ret (JStr msg_empty_body).
Proof.
  apply (proj1 (empty_body_error_is_recognised JNull chromedriver_params)).
  reflexivity.
Defined.

(** X18.  When the error object names its error, the call builds the
    [CustomRequestError] tagged with that name: the text ([message],
    else [class], else "unknown error") is converted to a string for the
    message, a conversion that raises makes the call raise, and nothing
    else is looked at. *)
Theorem named_error_is_tagged (body : JsVal) :
  truthy (member "error" (errorObjOf body)) = true ->
  getErrorFromResponseBody body
  = (message <- toStr (errorText (errorObjOf body)) ;;
     Ret (mkError message (Some (member "error" (errorObjOf body))))).
Proof.
  intros He.
  assert (Hshape : truthy body = true /\ is_object body = true
                   /\ forall (X : Res ErrorObject) (f : string -> Res ErrorObject),
                       match body with JStr s => f s | _ => X end = X).
  { unfold errorObjOf, present in He.
    destruct body; cbn in He; try discriminate; repeat split. }
  destruct Hshape as [Tb [Ho Hb]].
  assert (Te : truthy (errorObjOf body) = true).
  { destruct (truthy (errorObjOf body)) eqn:E; [reflexivity|].
    rewrite (falsy_member _ _ E) in He. discriminate. }
  assert (C : CustomRequestError body
              = (message <- toStr (errorText (errorObjOf body)) ;;
                 Ret (mkError message (Some (member "error" (errorObjOf body)))))).
  { rewrite (CustomRequestError_unfold _ Tb Te). now rewrite He. }
  unfold getErrorFromResponseBody. rewrite Tb, Ho, Hb. cbn [negb].
  rewrite (get_member _ _ (truthy_not_missing _ Tb)). cbn [bind].
  destruct (truthy (member "value" body)) eqn:Tv; cbn [bind]; [exact C|].
  rewrite (get_member _ _ (truthy_not_missing _ Tb)). cbn [bind].
  unfold errorObjOf, present in He. rewrite Tv in He. rewrite He. exact C.
Qed.

Lemma named_error_is_tagged_witness :
  getErrorFromResponseBody
    (JObj [("value", JObj [("error", JStr "no such window");
                           ("message", JNum 5)])])
  = Ret (mkError "5" (Some (JStr "no such window"))).
Proof.
  apply (named_error_is_tagged
           (JObj [("value", JObj [("error", JStr "no such window");
                                  ("message", JNum 5)])])).
  reflexivity.
Defined.

(** ** Environment flags *)

(** X19.  [getEnvironmentVars] raises on [undefined] and [null]; on any
    other options it returns exactly the seven flags, in their fixed
    order, each wrapped as [{value: flag}]: a flag the options lack comes
    out as [{value: undefined}] and any other member of the options is
    dropped. *)
Theorem getEnvironmentVars_flags (options : JsVal) :
  if nullish options
  then getEnvironmentVars options = Throw TypeError
  else exists o,
      getEnvironmentVars options = Ret (JObj o)
      /\ map fst o = environmentFlags
      /\ forall k, lookup k o
                   = if existsb (String.eqb k) environmentFlags
                     then JObj [("value", member k options)]
                     else JUndefined.
Proof.
  destruct (nullish options) eqn:N.
  - destruct options; try discriminate; reflexivity.
  - unfold getEnvironmentVars. rewrite !(get_member _ _ N). cbn [bind].
    eexists. split; [reflexivity|]. split; [reflexivity|].
    intros k. unfold lookup, environmentFlags. cbn [find existsb].
    rewrite !(String.eqb_sym k).
    repeat match goal with
           | |- context [?a =? k] =>
               destruct (a =? k) eqn:E;
               [apply String.eqb_eq in E; subst k; reflexivity|clear E]
           end.
    reflexivity.
Qed.

(** ** The command prototype *)

Lemma ProtocolName_eqb_eq (a b : ProtocolName) :
  ProtocolName_eqb a b = true -> a = b.
Proof. destruct a, b; try discriminate; reflexivity. Qed.

Lemma ProtocolName_eqb_refl (a : ProtocolName) : ProtocolName_eqb a a = true.
Proof. destruct a; reflexivity. Qed.

Section PrototypeMore.

Context {Descriptor : Type}.
Variable commandName : Descriptor -> Res string.
Variable mergeDescriptor : option Descriptor -> Descriptor -> Descriptor.

Lemma mergedTable_plain (f : Flags) (s : Store Descriptor) :
  isMobile f = false -> isChrome f = false -> isSauce f = false ->
  isSeleniumStandalone f = false ->
  mergedTable mergeDescriptor f s = s (baseName f).
Proof.
  intros M C S G.
  unfold mergedTable, extensionLayers, baseLayer, baseName.
  rewrite M, C, S, G. destruct (isW3C f); reflexivity.
Qed.

(** X20.  Building the prototype leaves every imported table as it was
    when the session is mobile, and also when it is not mobile and none
    of the browser-vendor, cloud-vendor and grid layers is switched
    on. *)
Theorem getPrototype_keeps_tables (f : Flags) (s : Store Descriptor)
        (n : ProtocolName) :
  isMobile f = true
  \/ (isChrome f = false /\ isSauce f = false /\ isSeleniumStandalone f = false) ->
  snd (getPrototype commandName mergeDescriptor f s) n = s n.
Proof.
  intros H. rewrite getPrototype_unfold. cbn [snd].
  destruct (isMobile f) eqn:M; [reflexivity|].
  destruct H as [H|[C [S G]]]; [discriminate|].
  rewrite mergedTable_plain by assumption. unfold write.
  destruct (ProtocolName_eqb n (baseName f)) eqn:E; [|reflexivity].
  now rewrite (ProtocolName_eqb_eq _ _ E).
Qed.

(** X21.  For a session that is not mobile the call writes one table
    and no other: the table of the session's dialect ([WebDriverProtocol]
    for a compliant session, [JsonWProtocol] otherwise) ends as the
    merged table, every other table is as it was. *)
Theorem getPrototype_writes_dialect_table (f : Flags) (s : Store Descriptor) :
  isMobile f = false ->
  snd (getPrototype commandName mergeDescriptor f s) (baseName f)
  = mergedTable mergeDescriptor f s
  /\ (forall n, ProtocolName_eqb n (baseName f) = false ->
                snd (getPrototype commandName mergeDescriptor f s) n = s n).
Proof.
  intros M. split.
  - rewrite (getPrototype_store _ _ _ _ _ M).
    now rewrite ProtocolName_eqb_refl.
  - intros n E. rewrite (getPrototype_store _ _ _ _ _ M). now rewrite E.
Qed.

(** X22.  What one session merges in stays for the next: after the
    prototype of a session that is not mobile has been built, a later
    session of the same dialect with no extension switched on is built
    from the table the earlier session merged, extension commands
    included. *)
Theorem getPrototype_later_session (f1 f2 : Flags) (s : Store Descriptor) :
  isMobile f1 = false ->
  isMobile f2 = false -> isW3C f2 = isW3C f1 ->
  isChrome f2 = false -> isSauce f2 = false -> isSeleniumStandalone f2 = false ->
  fst (getPrototype commandName mergeDescriptor f2
         (snd (getPrototype commandName mergeDescriptor f1 s)))
  = register commandName false (mergedTable mergeDescriptor f1 s).
Proof.
  intros M1 M2 W C S G.
  rewrite (getPrototype_unfold _ _ f2). cbn [fst]. rewrite G.
  rewrite mergedTable_plain by assumption.
  assert (B : baseName f2 = baseName f1) by (unfold baseName; now rewrite W).
  rewrite B. rewrite (getPrototype_store _ _ _ _ _ M1).
  now rewrite ProtocolName_eqb_refl.
Qed.

(** *** Keys keep their place *)

Lemma keys_put {A} (k : string) (v : A) (o : list (string * A)) :
  exists extra, map fst (put k v o) = (map fst o ++ extra)%list.
Proof.
  induction o as [|[k' v'] o [extra IH]]; cbn [put map fst app].
  - now exists [k].
  - destruct (k' =? k); cbn [map fst].
    + exists []. now rewrite app_nil_r.
    + exists extra. now rewrite IH.
Qed.

Lemma keys_mergeProtocol (object source : Protocol Descriptor) :
  exists extra,
    map fst (mergeProtocol mergeDescriptor object source)
    = (map fst object ++ extra)%list.
Proof.
  revert object. induction source as [|[e methods] source IH]; intros object.
  - exists []. now rewrite app_nil_r.
  - unfold mergeProtocol in *. cbn [fold_left].
    match goal with
    | |- context [fold_left _ source ?o] => destruct (IH o) as [x1 E1]
    end.
    rewrite E1.
    match goal with
    | |- context [put e ?v object] => destruct (keys_put e v object) as [x2 E2]
    end.
    rewrite E2. exists (x2 ++ x1)%list. now rewrite app_assoc.
Qed.

Lemma keys_fold_mergeProtocol (layers : list (Protocol Descriptor))
      (object : Protocol Descriptor) :
  exists extra,
    map fst (fold_left (mergeProtocol mergeDescriptor) layers object)
    = (map fst object ++ extra)%list.
Proof.
  revert object. induction layers as [|layer layers IH]; intros object.
  - exists []. now rewrite app_nil_r.
  - cbn [fold_left].
    destruct (IH (mergeProtocol mergeDescriptor object layer)) as [x1 E1].
    destruct (keys_mergeProtocol object layer) as [x2 E2].
    rewrite E1, E2. exists (x2 ++ x1)%list. now rewrite app_assoc.
Qed.

(** X23.  Merging never removes or moves an endpoint: the endpoints of
    the destination stay first and in their order, what the source adds
    comes after them.  So the merged table starts with the endpoints of
    the base layer, in the base layer's order. *)
Theorem merge_keeps_endpoint_order (f : Flags) (s : Store Descriptor) :
  (forall object source : Protocol Descriptor,
      exists extra,
        map fst (mergeProtocol mergeDescriptor object source)
        = (map fst object ++ extra)%list)
  /\ exists extra,
      map fst (mergedTable mergeDescriptor f s)
      = (map fst (baseLayer mergeDescriptor f s) ++ extra)%list.
Proof.
  split.
  - apply keys_mergeProtocol.
  - apply keys_fold_mergeProtocol.
Qed.

(** *** Nothing is lost in a merge *)

Lemma overlay_nil (o : option Descriptor) : overlay mergeDescriptor o [] = o.
Proof. reflexivity. Qed.

Lemma overlay_some (o : option Descriptor) (d : Descriptor) (l : list Descriptor) :
  exists d', overlay mergeDescriptor o (d :: l) = Some d'.
Proof.
  unfold overlay. cbn [fold_left].
  generalize (mergeDescriptor o d). induction l as [|x l IH]; intros a.
  - now exists a.
  - cbn [fold_left]. apply IH.
Qed.

Lemma overlay_keeps (d : Descriptor) (l : list Descriptor) :
  exists d', overlay mergeDescriptor (Some d) l = Some d'.
Proof.
  destruct l as [|x l]; [now exists d|apply overlay_some].
Qed.

(** X24.  After a merge an endpoint and method is declared exactly when
    the destination declared it or the source lists it, and a pair the
    source does not list keeps the description it had. *)
Theorem merge_loses_nothing (object source : Protocol Descriptor)
        (endpoint method : string) :
  (declared (mergeProtocol mergeDescriptor object source) endpoint method = None
   <-> declared object endpoint method = None
       /\ declarations source endpoint method = [])
  /\ (declarations source endpoint method = [] ->
      declared (mergeProtocol mergeDescriptor object source) endpoint method
      = declared object endpoint method).
Proof.
  rewrite declared_mergeProtocol.
  destruct (declarations source endpoint method) as [|d l] eqn:D.
  - rewrite overlay_nil. split; [|reflexivity].
    split; [intros H; now split|now intros [H _]].
  - destruct (overlay_some (declared object endpoint method) d l) as [d' ->].
    split; [|discriminate].
    split; [discriminate|intros [_ H]; discriminate].
Qed.

(** *** What the prototype holds *)

Lemma fold_selected (name : string) (l : list (Binding Descriptor))
      (acc : option (Binding Descriptor)) (b : Binding Descriptor) :
  fold_left
    (fun acc b => if declaresName commandName name b then Some b else acc)
    l acc = Some b ->
  acc = Some b \/ (In b l /\ commandName (bound_commandData b) = Ret name).
Proof.
  revert acc. induction l as [|x l IH]; intros acc H; cbn [fold_left] in H.
  - now left.
  - destruct (IH _ H) as [E|[I N]].
    + destruct (declaresName commandName name x) eqn:Q.
      * injection E as ->. right. split; [now left|].
        unfold declaresName in Q.
        destruct (commandName (bound_commandData b)) as [n|e]; [|discriminate].
        apply String.eqb_eq in Q. now subst n.
      * now left.
    + right. split; [now right|exact N].
Qed.

Lemma fold_selected_some (name : string) (l : list (Binding Descriptor))
      (x : Binding Descriptor) :
  exists b,
    fold_left
      (fun acc b => if declaresName commandName name b then Some b else acc)
      l (Some x) = Some b.
Proof.
  revert x. induction l as [|y l IH]; intros x; cbn [fold_left].
  - now exists x.
  - destruct (declaresName commandName name y); apply IH.
Qed.

Lemma fold_selected_in (name : string) (l : list (Binding Descriptor))
      (acc : option (Binding Descriptor)) (b : Binding Descriptor) :
  In b l ->
  commandName (bound_commandData b) = Ret name ->
  exists b',
    fold_left
      (fun acc b0 => if declaresName commandName name b0 then Some b0 else acc)
      l acc = Some b'.
Proof.
  revert acc. induction l as [|x l IH]; intros acc I N; [contradiction|].
  cbn [fold_left]. destruct I as [->|I].
  - unfold declaresName at 2. rewrite N, String.eqb_refl.
    apply fold_selected_some.
  - now apply IH.
Qed.

Lemma entries_grid (grid : bool) (p : Protocol Descriptor) (b : Binding Descriptor) :
  In b (entries grid p) -> bound_grid b = grid.
Proof.
  unfold entries. intros I. apply in_flat_map in I.
  destruct I as [[e methods] [_ I]]. apply in_map_iff in I.
  destruct I as [[m d] [<- _]]. reflexivity.
Qed.

(** X25.  A binding the prototype holds under a name is a command of
    the merged table whose command converts to that name, the name is
    not [__proto__], and the binding carries the session's grid flag.
    When the prototype is built, every command of the merged table whose
    name is not [__proto__] can be reached: the prototype holds a
    binding under the name it declares.  The name [__proto__] is never a
    key of the prototype. *)
Theorem getPrototype_bindings (f : Flags) (s : Store Descriptor) :
  (forall name b,
      registered name (fst (getPrototype commandName mergeDescriptor f s)) = Some b ->
      commandName (bound_commandData b) = Ret name
      /\ name <> "__proto__"
      /\ bound_grid b = isSeleniumStandalone f
      /\ In b (entries (isSeleniumStandalone f) (mergedTable mergeDescriptor f s)))
  /\ (forall name b,
         (exists prototype,
             fst (getPrototype commandName mergeDescriptor f s) = Ret prototype) ->
         In b (entries (isSeleniumStandalone f) (mergedTable mergeDescriptor f s)) ->
         commandName (bound_commandData b) = Ret name ->
         name <> "__proto__" ->
         exists b',
           registered name (fst (getPrototype commandName mergeDescriptor f s))
           = Some b')
  /\ registered "__proto__" (fst (getPrototype commandName mergeDescriptor f s))
     = None.
Proof.
  destruct (fst (getPrototype commandName mergeDescriptor f s))
    as [prototype|e] eqn:G; cbn [registered].
  - pose proof (getPrototype_registered commandName mergeDescriptor f s prototype)
      as R.
    split; [|split].
    + intros name b H. rewrite (R name G) in H.
      destruct (name =? "__proto__") eqn:Q; [discriminate|].
      unfold lastNamed in H.
      destruct (fold_selected _ _ _ _ H) as [E|[I N]]; [discriminate|].
      repeat split; [exact N|now apply String.eqb_neq| |exact I].
      now apply entries_grid in I.
    + intros name b _ I N Q. rewrite (R name G).
      apply String.eqb_neq in Q. rewrite Q. unfold lastNamed.
      now apply fold_selected_in with (b := b).
    + now rewrite (R "__proto__" G).
  - split; [|split].
    + discriminate.
    + intros name b [prototype H]. discriminate.
    + reflexivity.
Qed.

End PrototypeMore.

Lemma getPrototype_keeps_tables_witness :
  snd (getPrototype commandOf mergeFlat plain_flags sample_tables) WebDriverProtocol
  = sample_tables WebDriverProtocol.
Proof.
  apply (getPrototype_keeps_tables commandOf mergeFlat plain_flags sample_tables).
  right. repeat split; reflexivity.
Defined.

Lemma getPrototype_writes_dialect_table_witness :
  snd (getPrototype commandOf mergeFlat chrome_flags sample_tables)
      (baseName chrome_flags)
  = mergedTable mergeFlat chrome_flags sample_tables.
Proof.
  apply (getPrototype_writes_dialect_table
           commandOf mergeFlat chrome_flags sample_tables).
  reflexivity.
Defined.

Lemma getPrototype_later_session_witness :
  fst (getPrototype commandOf mergeFlat plain_flags
         (snd (getPrototype commandOf mergeFlat chrome_flags sample_tables)))
  = register commandOf false (mergedTable mergeFlat chrome_flags sample_tables).
Proof.
  apply (getPrototype_later_session commandOf mergeFlat chrome_flags plain_flags);
    reflexivity.
Defined.

Lemma merge_loses_nothing_witness :
  declared (mergeProtocol mergeFlat (sample_tables WebDriverProtocol)
                          (sample_tables ChromiumProtocol))
           "/session/:sessionId/title" "GET"
  = declared (sample_tables WebDriverProtocol) "/session/:sessionId/title" "GET".
Proof.
  apply (merge_loses_nothing mergeFlat (sample_tables WebDriverProtocol)
                             (sample_tables ChromiumProtocol)).
  reflexivity.
Defined.

Lemma getPrototype_bindings_witness :
  exists b',
    registered "navigateTo"
      (fst (getPrototype commandOf mergeFlat chrome_flags sample_tables))
    = Some b'.
Proof.
  apply (proj1 (proj2 (getPrototype_bindings commandOf mergeFlat chrome_flags
                                             sample_tables))
               "navigateTo"
               (command "POST" "/session/:sessionId/url" (named "navigateTo") false)).
  - eexists. reflexivity.
  - cbn. left. reflexivity.
  - reflexivity.
  - discriminate.
Defined.
